(** * spx-breadth-collector: intraday market-breadth indicators

    A shallow embedding of [breadth.py] and the properties of its
    alignment and indicator routines.

    Modelling conventions.
    - A [datetime] is a wall-clock minute count ([1440 * date + minute of
      day]).  Every timestamp of a run carries the tzinfo obtained by
      localising midnight of the session date, so wall-clock differences
      are real differences.
    - float64 cells are modelled exactly: prices are rationals, the sign
      tests and the division by zero follow IEEE 754 ([fl] below), rounding
      is not modelled.  Volume sums are integral (exact in float64 below
      2^53) and are kept in [Z].
    - A series has one bar per timestamp (a finite map from timestamps to
      bars); NaN in an OHLCV frame is a missing row, [None].
    - pandas' [pct_change()] is called with its defaults.  The default
      [fill_method] is ['pad'] up to pandas 2.x and [None] from pandas 3.0
      on; it is the parameter [default_fill_method] of the routines below.
    - DataFrames live in a store ([heap]) and are passed by reference, as
      Python does; dictionaries local to a function are association lists
      in insertion order.
    - [print] calls are not modelled. *)

From Stdlib Require Import ZArith QArith Lia Ascii.
From stdpp Require Import base gmap strings list.

Open Scope Z_scope.

(** ** Timestamps *)

Definition date := Z.
Definition datetime := Z.

(** [datetime.combine(date, datetime.min.time())] *)
Definition combine_midnight (d : date) : datetime := 1440 * d.

(** [dt.replace(hour=h, minute=m)] *)
Definition replace_hm (dt : datetime) (h m : Z) : datetime :=
  1440 * (dt / 1440) + 60 * h + m.

(** [get_market_open_close] *)
Definition get_market_open_close (d : date) : datetime * datetime :=
  let open_time := replace_hm (combine_midnight d) 9 30 in
  let close_time := replace_hm open_time 12 30 in
  (open_time, close_time).

(** [pd.date_range(start=, end=, freq=)]: every [start + i * freq] up to
    and including [end] (pandas' default is [inclusive='both']). *)
Definition date_range (start_time end_time freq : Z) : list datetime :=
  if decide (start_time <= end_time)
  then (fun i => start_time + i * freq)
         <$> seqZ 0 ((end_time - start_time) / freq + 1)
  else [].

(** ** float64 values *)

Inductive fl : Type :=
  | FNum (q : Q)
  | FPInf
  | FNInf
  | FNaN.

Definition Qsign (q : Q) : comparison := (q ?= 0)%Q.

(** IEEE division of two finite numbers. *)
Definition Qfdiv (x y : Q) : fl :=
  match Qsign y with
  | Eq => match Qsign x with
          | Gt => FPInf
          | Lt => FNInf
          | Eq => FNaN
          end
  | _ => FNum (x / y)
  end.

(** Arithmetic on float64 values; zeros are unsigned. *)
Definition fl_of_Z (z : Z) : fl := FNum (inject_Z z).

Definition fl_neg (x : fl) : fl :=
  match x with
  | FNum q => FNum (- q)
  | FPInf => FNInf
  | FNInf => FPInf
  | FNaN => FNaN
  end.

Definition fl_add (x y : fl) : fl :=
  match x, y with
  | FNaN, _ | _, FNaN => FNaN
  | FNum a, FNum b => FNum (a + b)
  | FPInf, FNInf | FNInf, FPInf => FNaN
  | FPInf, _ | _, FPInf => FPInf
  | FNInf, _ | _, FNInf => FNInf
  end.

Definition fl_sub (x y : fl) : fl := fl_add x (fl_neg y).

Definition fl_div (x y : fl) : fl :=
  match x, y with
  | FNaN, _ | _, FNaN => FNaN
  | FNum a, FNum b => Qfdiv a b
  | FNum _, _ => FNum 0
  | _, FNum b => match Qsign b with Lt => fl_neg x | _ => x end
  | _, _ => FNaN
  end.

(** [x > 0], [x < 0], [x == 0]: all false on NaN. *)
Definition fl_gt0 (x : fl) : bool :=
  match x with
  | FNum q => match Qsign q with Gt => true | _ => false end
  | FPInf => true
  | _ => false
  end.

Definition fl_lt0 (x : fl) : bool :=
  match x with
  | FNum q => match Qsign q with Lt => true | _ => false end
  | FNInf => true
  | _ => false
  end.

Definition fl_eq0 (x : fl) : bool :=
  match x with
  | FNum q => match Qsign q with Eq => true | _ => false end
  | _ => false
  end.


(** ** Bars, series and frames *)

Record Bar : Type := mkBar {
  Open : Q;
  High : Q;
  Low : Q;
  Close : Q;
  Volume : Z
}.

(** What [stock.history] returns: one row per timestamp. *)
Abbreviation series := (gmap Z Bar).

(** A DataFrame whose columns all hold cells of type [A]; columns are
    labelled by ticker. *)
Record frame (A : Type) : Type := mkFrame {
  f_index : list datetime;
  f_cols : list (string * list A)
}.
Arguments mkFrame {A} _ _.
Arguments f_index {A} _.
Arguments f_cols {A} _.

(** Cell-wise map and positional zip of the columns of two frames over the
    same labels. *)
Definition frame_map {A B} (f : A → B) (d : frame A) : frame B :=
  mkFrame (f_index d) ((fun c : string * list A => (c.1, f <$> c.2)) <$> f_cols d).

Definition frame_zip {A B C} (f : A → B → C) (d : frame A) (e : frame B) : frame C :=
  mkFrame (f_index d)
    (zip_with (fun (c : string * list A) (c' : string * list B) =>
                 (c.1, zip_with f c.2 c'.2)) (f_cols d) (f_cols e)).

(** The OHLCV frame: (ticker, field) columns grouped by ticker, a cell
    holds the five fields of one bar, [None] when they are NaN. *)
Abbreviation ohlcv_frame := (frame (option Bar)).

(** A reindexed series: one cell per entry of the index. *)
Abbreviation aligned := (list (option Bar)).

(** [df.reindex(index)] (no [method], no [fill_value]). *)
Definition reindex (s : series) (index : list datetime) : aligned :=
  (fun t => s !! t) <$> index.

(** [data.xs('Close', axis=1, level=1)] and [data.xs('Volume', ...)] *)
Definition xs_close (d : ohlcv_frame) : frame (option Q) :=
  frame_map (fun r : option Bar => Close <$> r) d.

Definition xs_volume (d : ohlcv_frame) : frame (option Z) :=
  frame_map (fun r : option Bar => Volume <$> r) d.

(** ** [pct_change] *)

Inductive fill_method : Type := pad | no_fill.

(** [ffill]: a NaN takes the last valid value before it, if any. *)
Fixpoint ffill_from {A} (last : option A) (l : list (option A)) : list (option A) :=
  match l with
  | [] => []
  | Some x :: l' => Some x :: ffill_from (Some x) l'
  | None :: l' => last :: ffill_from last l'
  end.

Definition ffill {A} (l : list (option A)) : list (option A) := ffill_from None l.

(** [shift(1)]: the first row becomes NaN, the last one is dropped. *)
Definition shift1 {A} (l : list (option A)) : list (option A) :=
  match l with
  | [] => []
  | _ => None :: removelast l
  end.

(** [data / shifted - 1] on one cell. *)
Definition change (x s : option Q) : fl :=
  match x, s with
  | Some a, Some b => fl_sub (Qfdiv a b) (FNum 1)
  | _, _ => FNaN
  end.

Definition pct_change_col (fm : fill_method) (col : list (option Q)) : list fl :=
  let data := match fm with pad => ffill col | no_fill => col end in
  zip_with change data (shift1 data).

Definition pct_change (fm : fill_method) (d : frame (option Q)) : frame fl :=
  mkFrame (f_index d)
    ((fun c : string * list (option Q) => (c.1, pct_change_col fm c.2)) <$> f_cols d).

(** ** Row sums and cumulative sums *)

(** [.sum(axis=1)]: one total per row of the index, over all columns. *)
Definition row_total (cols : list (string * list Z)) (k : nat) : Z :=
  foldr Z.add 0 ((fun c : string * list Z => default 0 (c.2 !! k)) <$> cols).

Definition sum_axis1 (d : frame Z) : list Z :=
  row_total (f_cols d) <$> seq 0 (length (f_index d)).

(** Booleans are summed as 0/1; NaN cells are skipped ([skipna=True]). *)
Definition count_axis1 (d : frame bool) : list Z :=
  sum_axis1 (frame_map Z.b2z d).

Definition nansum_axis1 (d : frame (option Z)) : list Z :=
  sum_axis1 (frame_map (default 0) d).

(** [volume_data[mask]]: cells where the mask is false become NaN. *)
Definition where_mask (d : frame (option Z)) (m : frame bool) : frame (option Z) :=
  frame_zip (fun (v : option Z) (b : bool) => if b then v else None) d m.

(** [.cumsum()] *)
Fixpoint cumsum_from (acc : Z) (l : list Z) : list Z :=
  match l with
  | [] => []
  | x :: l' => (acc + x) :: cumsum_from (acc + x) l'
  end.

Definition cumsum (l : list Z) : list Z := cumsum_from 0 l.

(** ** Indicator tables *)

(** A column of an indicator table: integral values (int64, or float64
    holding exact volume totals) or general floats. *)
Inductive column : Type :=
  | NCol (l : list Z)
  | FCol (l : list fl).

Definition to_floats (c : column) : list fl :=
  match c with
  | NCol l => fl_of_Z <$> l
  | FCol l => l
  end.

(** [a - b], [a / b] (true division) and [.cumsum()] on Series. *)
Definition col_sub (a b : column) : column :=
  match a, b with
  | NCol x, NCol y => NCol (zip_with Z.sub x y)
  | _, _ => FCol (zip_with fl_sub (to_floats a) (to_floats b))
  end.

Definition col_div (a b : column) : column :=
  FCol (zip_with fl_div (to_floats a) (to_floats b)).

Fixpoint fl_cumsum_from (acc : fl) (l : list fl) : list fl :=
  match l with
  | [] => []
  | FNaN :: l' => FNaN :: fl_cumsum_from acc l'
  | x :: l' => fl_add acc x :: fl_cumsum_from (fl_add acc x) l'
  end.

Definition col_cumsum (c : column) : column :=
  match c with
  | NCol l => NCol (cumsum l)
  | FCol l => FCol (fl_cumsum_from (FNum 0) l)
  end.

(** ** Python dictionaries, in insertion order *)

Fixpoint dict_set {V} (k : string) (v : V) (d : list (string * V)) : list (string * V) :=
  match d with
  | [] => [(k, v)]
  | (k', v') :: d' =>
      if decide (k' = k) then (k, v) :: d' else (k', v') :: dict_set k v d'
  end.

Fixpoint dict_get {V} (k : string) (d : list (string * V)) : option V :=
  match d with
  | [] => None
  | (k', v') :: d' => if decide (k' = k) then Some v' else dict_get k d'
  end.

Definition dict_keys {V} (d : list (string * V)) : list string := fst <$> d.
Definition dict_values {V} (d : list (string * V)) : list V := snd <$> d.

(** ** The store of DataFrames *)

Record ind_frame : Type := mkInd {
  i_index : list datetime;
  i_cols : list (string * column)
}.

(** Per-sector indicator table: (sector, indicator) columns. *)
Record sector_frame : Type := mkSec {
  s_index : list datetime;
  s_cols : list ((string * string) * column)
}.

Inductive obj : Type :=
  | OFrame (d : ohlcv_frame)
  | IFrame (t : ind_frame)
  | SFrame (s : sector_frame).

Abbreviation ref := nat (only parsing).

Inductive out_kind : Type := ohlcv | market_indicators | sector_indicators.

(** The store and the files written so far, named by kind and date. *)
Record world : Type := mkWorld {
  heap : list obj;
  files : list ((out_kind * date) * obj)
}.

Inductive exn : Type :=
  | KeyError
  | ValueError
  | AttributeError
  | ProviderError (code : Z).

Inductive res (A : Type) : Type :=
  | Ok (a : A)
  | Raise (e : exn).
Arguments Ok {A} _.
Arguments Raise {A} _.

(** Computations that read and write the store and may raise. *)
Definition M (A : Type) : Type := world → res A * world.

#[global] Instance M_ret : MRet M := fun A (a : A) w => (Ok a, w).

#[global] Instance M_bind : MBind M := fun A B (f : A → M B) (m : M A) w =>
  match m w with
  | (Ok a, w') => f a w'
  | (Raise e, w') => (Raise e, w')
  end.

Definition raise {A} (e : exn) : M A := fun w => (Raise e, w).

Definition lift_res {A} (r : res A) : M A := fun w => (r, w).

(** Run [m] and hand its outcome to the caller: the body of a [try]. *)
Definition attempt {A} (m : M A) : M (res A) := fun w =>
  match m w with
  | (r, w') => (Ok r, w')
  end.

Definition alloc (o : obj) : M ref := fun w =>
  (Ok (length (heap w)), mkWorld (heap w ++ [o]) (files w)).

Definition load (r : ref) : M obj := fun w =>
  match heap w !! r with
  | Some o => (Ok o, w)
  | None => (Raise AttributeError, w)
  end.

Definition store (r : ref) (o : obj) : M unit := fun w =>
  (Ok tt, mkWorld (<[r := o]> (heap w)) (files w)).

Definition load_ohlcv (r : ref) : M ohlcv_frame :=
  o ← load r;
  match o with
  | OFrame d => mret d
  | _ => raise AttributeError
  end.

Definition load_ind (r : ref) : M ind_frame :=
  o ← load r;
  match o with
  | IFrame t => mret t
  | _ => raise AttributeError
  end.

(** [indicators[name] = col] *)
Definition setitem (r : ref) (name : string) (col : column) : M unit :=
  t ← load_ind r;
  store r (IFrame (mkInd (i_index t) (dict_set name col (i_cols t)))).

(** [indicators[name]] *)
Definition getitem (r : ref) (name : string) : M column :=
  t ← load_ind r;
  match dict_get name (i_cols t) with
  | Some c => mret c
  | None => raise KeyError
  end.

Section Indicators.

(** The [fill_method] that [pct_change()] takes by default. *)
Variable default_fill_method : fill_method.

(** [calculate_market_indicators] *)
Definition calculate_market_indicators (data : ref) : M ref :=
  d ← load_ohlcv data;
  indicators ← alloc (IFrame (mkInd (f_index d) []));
  let price_changes := pct_change default_fill_method (xs_close d) in
  let volume_data := xs_volume d in
  _ ← setitem indicators "Advances"
        (NCol (count_axis1 (frame_map fl_gt0 price_changes)));
  _ ← setitem indicators "Declines"
        (NCol (count_axis1 (frame_map fl_lt0 price_changes)));
  _ ← setitem indicators "Unchanged"
        (NCol (count_axis1 (frame_map fl_eq0 price_changes)));
  adv ← getitem indicators "Advances";
  dec ← getitem indicators "Declines";
  _ ← setitem indicators "AD_Line" (col_cumsum (col_sub adv dec));
  let uvol_per_period :=
    nansum_axis1 (where_mask volume_data (frame_map fl_gt0 price_changes)) in
  let dvol_per_period :=
    nansum_axis1 (where_mask volume_data (frame_map fl_lt0 price_changes)) in
  _ ← setitem indicators "UVOL" (NCol (cumsum uvol_per_period));
  _ ← setitem indicators "DVOL" (NCol (cumsum dvol_per_period));
  uvol ← getitem indicators "UVOL";
  dvol ← getitem indicators "DVOL";
  _ ← setitem indicators "VOLD" (col_sub uvol dvol);
  uvol' ← getitem indicators "UVOL";
  dvol' ← getitem indicators "DVOL";
  _ ← setitem indicators "VOLD_Ratio" (col_div uvol' dvol');
  mret indicators.

End Indicators.

(** ** Orchestration *)

Fixpoint for_each {A S} (l : list A) (body : A → S → M S) (s : S) : M S :=
  match l with
  | [] => mret s
  | x :: l' => s' ← body x s; for_each l' body s'
  end.

Definition load_sector (r : ref) : M sector_frame :=
  o ← load r;
  match o with
  | SFrame s => mret s
  | _ => raise AttributeError
  end.

(** Column lookup by ticker; a missing label is a [KeyError]. *)
Fixpoint select_cols {A} (cols : list (string * list A)) (labels : list string)
  : res (list (string * list A)) :=
  match labels with
  | [] => Ok []
  | t :: labels' =>
      match dict_get t cols with
      | None => Raise KeyError
      | Some c =>
          match select_cols cols labels' with
          | Ok cs => Ok ((t, c) :: cs)
          | Raise e => Raise e
          end
      end
  end.

(** [combined_data[sector_tickers]]: a new frame with the columns of the
    listed tickers. *)
Definition getitem_tickers (r : ref) (labels : list string) : M ref :=
  d ← load_ohlcv r;
  cs ← lift_res (select_cols (f_cols d) labels);
  alloc (OFrame (mkFrame (f_index d) cs)).

(** [combined_data.columns = MultiIndex.from_product([keys, fields])]: the
    ticker level of the labels is overwritten; the number of labels has to
    match. *)
Definition set_ticker_labels (r : ref) (keys : list string) : M unit :=
  d ← load_ohlcv r;
  if decide (length keys = length (f_cols d))
  then store r (OFrame (mkFrame (f_index d) (zip keys (snd <$> f_cols d))))
  else raise ValueError.

(** [pd.concat(sector_indicators, axis=1)]: all tables share one index. *)
Fixpoint concat_tables (tables : list (string * ind_frame))
  : list ((string * string) * column) :=
  match tables with
  | [] => []
  | (sector, t) :: tables' =>
      ((fun c : string * column => ((sector, c.1), c.2)) <$> i_cols t)
        ++ concat_tables tables'
  end.

Definition load_tables (refs : list (string * ref)) : M (list (string * ind_frame)) :=
  for_each refs
    (fun (p : string * ref) (acc : list (string * ind_frame)) =>
       t ← load_ind p.2; mret (acc ++ [(p.1, t)]))
    [].

Definition concat_axis1 (refs : list (string * ref)) : M ref :=
  tables ← load_tables refs;
  match tables with
  | [] => raise ValueError
  | (_, t) :: _ => alloc (SFrame (mkSec (i_index t) (concat_tables tables)))
  end.

(** [MultiIndex.from_product([a, b])] *)
Definition from_product (a b : list string) : list (string * string) :=
  x ← a; (fun y => (x, y)) <$> b.

Definition set_sector_labels (r : ref) (labels : list (string * string)) : M unit :=
  s ← load_sector r;
  if decide (length labels = length (s_cols s))
  then store r (SFrame (mkSec (s_index s) (zip labels (snd <$> s_cols s))))
  else raise ValueError.

(** [pd.DataFrame()] in each of its three roles. *)
Definition empty_ohlcv : obj := OFrame (mkFrame [] []).
Definition empty_indicators : obj := IFrame (mkInd [] []).
Definition empty_sector : obj := SFrame (mkSec [] []).

(** [df.shape]: rows and columns (five fields per ticker). *)
Definition shape (o : obj) : nat * nat :=
  match o with
  | OFrame d => (length (f_index d), 5 * length (f_cols d))%nat
  | IFrame t => (length (i_index t), length (i_cols t))
  | SFrame s => (length (s_index s), length (s_cols s))
  end.

(** [ticker.replace('$', '')] *)
Fixpoint remove_dollar (s : string) : string :=
  match s with
  | EmptyString => EmptyString
  | String c s' =>
      if decide (c = "$"%char) then remove_dollar s' else String c (remove_dollar s')
  end.

Section Run.

Variable default_fill_method : fill_method.

(** The external collaborators: the ticker universe, the market-data
    provider ([yf.Ticker(t).history(start, end, interval="1m")]) and the
    reference data ([yf.Ticker(t).info]); each call may raise. *)
Variable sp_500_nyc_yahoo_tickers : res (list string).
Variable history : string → datetime → datetime → res series.
Variable info : string → res (gmap string string).

(** [get_spx_tickers] *)
Definition get_spx_tickers : M (list string) :=
  tickers ← lift_res sp_500_nyc_yahoo_tickers;
  mret (remove_dollar <$> tickers).

(** [get_sector] *)
Definition get_sector (ticker : string) : M string :=
  r ← attempt (stock_info ← lift_res (info ticker);
               mret (default "Unknown" (stock_info !! "sector")));
  match r with
  | Ok sector => mret sector
  | Raise e => mret "Unknown"
  end.

(** The body of the fetch loop of [calculate_indicators].  The two
    dictionaries are updated in place, so an exception leaves them as they
    were when it was raised. *)
Definition fetch (start_time end_time : datetime) (ticker : string)
    (st : list (string * series) * list (string * string))
  : M (list (string * series) * list (string * string)) :=
  let all_data := st.1 in
  let sectors := st.2 in
  r ← attempt (lift_res (history ticker start_time end_time));
  match r with
  | Raise e => mret (all_data, sectors)
  | Ok data =>
      if decide (size data = 0%nat) then mret (all_data, sectors)
      else
        let all_data := dict_set ticker data all_data in
        r' ← attempt (get_sector ticker);
        match r' with
        | Raise e => mret (all_data, sectors)
        | Ok sector => mret (all_data, dict_set ticker sector sectors)
        end
  end.

(** The body of the per-sector loop. *)
Definition sector_step (combined_data : ref) (sectors : list (string * string))
    (sector : string) (sector_indicators : list (string * ref))
  : M (list (string * ref)) :=
  let sector_tickers :=
    fst <$> filter (fun p : string * string => p.2 = sector) sectors in
  sector_data ← getitem_tickers combined_data sector_tickers;
  r ← calculate_market_indicators default_fill_method sector_data;
  mret (dict_set sector r sector_indicators).

(** The canonical Time Index of a session:
    [pd.date_range(start=start_time, end=end_time, freq='1min')]. *)
Definition common_index (d : date) : list datetime :=
  date_range (get_market_open_close d).1 (get_market_open_close d).2 1.

(** [calculate_indicators].  [set(sectors.values())] is iterated in the
    order of [remove_dups]. *)
Definition calculate_indicators (tickers : list string) (d : date)
  : M (ref * ref * ref) :=
  let start_time := (get_market_open_close d).1 in
  let end_time := (get_market_open_close d).2 in
  st ← for_each tickers (fetch start_time end_time) ([], []);
  let all_data := st.1 in
  let sectors := st.2 in
  match all_data with
  | [] =>
      r1 ← alloc empty_ohlcv;
      r2 ← alloc empty_indicators;
      r3 ← alloc empty_sector;
      mret (r1, r2, r3)
  | _ =>
      let all_data :=
        (fun p : string * series => (p.1, reindex p.2 (common_index d))) <$> all_data in
      combined_data ← alloc (OFrame (mkFrame (common_index d) all_data));
      _ ← set_ticker_labels combined_data (dict_keys all_data);
      indicators ← calculate_market_indicators default_fill_method combined_data;
      sector_indicators ←
        for_each (remove_dups (dict_values sectors))
          (sector_step combined_data sectors) [];
      sector_indicators_df ← concat_axis1 sector_indicators;
      first ← match sector_indicators with
              | [] => raise KeyError
              | (_, r) :: _ => load_ind r
              end;
      _ ← set_sector_labels sector_indicators_df
            (from_product (dict_keys sector_indicators) (dict_keys (i_cols first)));
      mret (combined_data, indicators, sector_indicators_df)
  end.

(** [df.to_csv(name)] *)
Definition to_csv (r : ref) (k : out_kind) (d : date) : M unit := fun w =>
  match heap w !! r with
  | Some o => (Ok tt, mkWorld (heap w) (files w ++ [((k, d), o)]))
  | None => (Raise AttributeError, w)
  end.

(** [main]; [today] is the current date in New York. *)
Definition main (today : date) : M unit :=
  tickers ← get_spx_tickers;
  out ← calculate_indicators tickers today;
  _ ← to_csv out.1.1 ohlcv today;
  _ ← to_csv out.1.2 market_indicators today;
  _ ← to_csv out.2 sector_indicators today;
  mret tt.

End Run.

(** * Vocabulary of the properties *)

(** ** Frames and tables *)

(** Every column has one cell per entry of the index. *)
Definition frame_wf {A} (d : frame A) : Prop :=
  Forall (fun c : string * list A => length c.2 = length (f_index d)) (f_cols d).

(** The close column of a reindexed series. *)
Definition closes (col : aligned) : list (option Q) :=
  (fun r : option Bar => Close <$> r) <$> col.

(** The total over the columns of row [k], cell by cell. *)
Definition col_sum {A} (g : A → Z) (cols : list (string * list A)) (k : nat) : Z :=
  foldr Z.add 0 ((fun c : string * list A => from_option g 0 (c.2 !! k)) <$> cols).

Definition indicator_names : list string :=
  ["Advances"; "Declines"; "Unchanged"; "AD_Line"; "UVOL"; "DVOL"; "VOLD";
   "VOLD_Ratio"].

(** The table that the eight assignments of [calculate_market_indicators]
    build, in closed form. *)
Definition indicator_table (fm : fill_method) (d : ohlcv_frame) : ind_frame :=
  let price_changes := pct_change fm (xs_close d) in
  let adv := count_axis1 (frame_map fl_gt0 price_changes) in
  let dec := count_axis1 (frame_map fl_lt0 price_changes) in
  let unch := count_axis1 (frame_map fl_eq0 price_changes) in
  let uvol :=
    cumsum (nansum_axis1 (where_mask (xs_volume d) (frame_map fl_gt0 price_changes))) in
  let dvol :=
    cumsum (nansum_axis1 (where_mask (xs_volume d) (frame_map fl_lt0 price_changes))) in
  mkInd (f_index d)
    [("Advances", NCol adv); ("Declines", NCol dec); ("Unchanged", NCol unch);
     ("AD_Line", NCol (cumsum (zip_with Z.sub adv dec)));
     ("UVOL", NCol uvol); ("DVOL", NCol dvol);
     ("VOLD", NCol (zip_with Z.sub uvol dvol));
     ("VOLD_Ratio", FCol (zip_with fl_div (fl_of_Z <$> uvol) (fl_of_Z <$> dvol)))].

(** [calculate_market_indicators] on frame [r] of store [w] returns, without
    raising, a reference to table [t]. *)
Definition returns_table (fm : fill_method) (w : world) (r : ref) (t : ind_frame)
  : Prop :=
  ∃ (r' : ref) (w' : world),
    calculate_market_indicators fm r w = (Ok r', w')
    ∧ heap w' !! r' = Some (IFrame t).

(** Columns of an indicator table, by name. *)
Definition int_column (t : ind_frame) (name : string) : option (list Z) :=
  match dict_get name (i_cols t) with
  | Some (NCol l) => Some l
  | _ => None
  end.

Definition float_column (t : ind_frame) (name : string) : option (list fl) :=
  match dict_get name (i_cols t) with
  | Some (FCol l) => Some l
  | _ => None
  end.

(** Volume traded in each period by the tickers whose change satisfies [p]:
    [volume_data[p(price_changes)].sum(axis=1)]. *)
Definition volume_per_period (fm : fill_method) (p : fl → bool) (d : ohlcv_frame)
  : list Z :=
  nansum_axis1 (where_mask (xs_volume d) (frame_map p (pct_change fm (xs_close d)))).


(** ** The run of [calculate_indicators] *)

(** The sector that [get_sector] returns for a ticker. *)
Definition sector_of (info : string → res (gmap string string)) (ticker : string)
  : string :=
  match info ticker with
  | Ok stock_info => default "Unknown" (stock_info !! "sector")
  | Raise _ => "Unknown"
  end.

(** The two dictionaries after one turn of the fetch loop. *)
Definition fetched (history : string → datetime → datetime → res series)
    (info : string → res (gmap string string)) (start_time end_time : datetime)
    (st : list (string * series) * list (string * string)) (ticker : string)
  : list (string * series) * list (string * string) :=
  match history ticker start_time end_time with
  | Raise _ => st
  | Ok data =>
      if decide (size data = 0%nat) then st
      else (dict_set ticker data st.1, dict_set ticker (sector_of info ticker) st.2)
  end.

(** Both dictionaries hold the same tickers, in the same order, once each. *)
Definition dicts_ok (st : list (string * series) * list (string * string)) : Prop :=
  dict_keys st.1 = dict_keys st.2 ∧ NoDup (dict_keys st.1).

(** The two dictionaries at the end of the fetch loop. *)
Definition fetch_all (history : string → datetime → datetime → res series)
    (info : string → res (gmap string string)) (tickers : list string) (d : date)
  : list (string * series) * list (string * string) :=
  foldl (fetched history info (get_market_open_close d).1 (get_market_open_close d).2)
    ([], []) tickers.

(** Every recorded sector is the one [get_sector] returns for its ticker. *)
Definition sectors_recorded (info : string → res (gmap string string))
    (sectors : list (string * string)) : Prop :=
  ∀ t : string, t ∈ dict_keys sectors → dict_get t sectors = Some (sector_of info t).

(** The Combined Frame of a session. *)
Definition combined_frame (d : date) (all_data : list (string * series))
  : ohlcv_frame :=
  mkFrame (common_index d)
    ((fun p : string * series => (p.1, reindex p.2 (common_index d))) <$> all_data).

Definition sector_tickers (sectors : list (string * string)) (sector : string)
  : list string :=
  fst <$> filter (fun p : string * string => p.2 = sector) sectors.

(** The columns that [select_cols] finds. *)
Fixpoint pick {A} (cols : list (string * list A)) (labels : list string)
  : list (string * list A) :=
  match labels with
  | [] => []
  | t :: labels' =>
      match dict_get t cols with
      | Some c => (t, c) :: pick cols labels'
      | None => pick cols labels'
      end
  end.

(** The sector-restricted sub-frame. *)
Definition sub_frame (comb : ohlcv_frame) (sectors : list (string * string))
    (sector : string) : ohlcv_frame :=
  mkFrame (f_index comb) (pick (f_cols comb) (sector_tickers sectors sector)).

(** The table of a sector. *)
Definition sector_table (fm : fill_method) (comb : ohlcv_frame)
    (sectors : list (string * string)) (sector : string) : ind_frame :=
  indicator_table fm (sub_frame comb sectors sector).

(** Every reference collected so far points to the table of its sector. *)
Definition tables_at (fm : fill_method) (comb : ohlcv_frame)
    (sectors : list (string * string)) (w : world) (acc : list (string * ref))
  : Prop :=
  Forall (fun p : string * ref =>
            heap w !! p.2 = Some (IFrame (sector_table fm comb sectors p.1))) acc.

(** ** Sums over sectors *)


(** The cell of row [k] of an integral column, 0 when there is none. *)
Definition cell_at (c : column) (k : nat) : Z :=
  match c with
  | NCol l => default 0 (l !! k)
  | FCol _ => 0
  end.


Definition int_cell (t : ind_frame) (name : string) (k : nat) : Z :=
  match dict_get name (i_cols t) with
  | Some c => cell_at c k
  | None => 0
  end.


(** ** Fixtures *)

Definition bar (c : Q) (v : Z) : Bar := mkBar c c c c v.

(** A three-ticker, four-minute frame: A rises, B falls and has no bar in
    the third minute, C stays flat. *)
Definition fixture_frame : ohlcv_frame :=
  mkFrame [570; 571; 572; 573]
    [("A", [Some (bar 10 100); Some (bar 11 200); Some (bar 12 300); Some (bar 13 50)]);
     ("B", [Some (bar 20 400); Some (bar 19 500); None; Some (bar 18 600)]);
     ("C", [Some (bar 5 700); Some (bar 5 800); Some (bar 5 900); Some (bar 5 10)])].

Definition fixture_world : world := mkWorld [OFrame fixture_frame] [].



(** Tickers A and C of the fixture. *)
Definition rising_series : series :=
  <[573 := bar 13 50]> (<[572 := bar 12 300]> (<[571 := bar 11 200]>
    (<[570 := bar 10 100]> ∅))).

(** Ticker B of the fixture: bars at 9:30, 9:31 and 9:33, none at 9:32. *)
Definition gap_series : series :=
  <[573 := bar 18 600]> (<[571 := bar 19 500]> (<[570 := bar 20 400]> ∅)).

Definition flat_series : series :=
  <[573 := bar 5 10]> (<[572 := bar 5 900]> (<[571 := bar 5 800]>
    (<[570 := bar 5 700]> ∅))).

(** Providers for a session: A, B and C have bars, E has none, every other
    fetch fails; the sector of A is known, B has no sector entry, every
    other lookup fails. *)
Definition fixture_history (ticker : string) (start_time end_time : datetime)
  : res series :=
  if decide (ticker = "A") then Ok rising_series
  else if decide (ticker = "B") then Ok gap_series
  else if decide (ticker = "C") then Ok flat_series
  else if decide (ticker = "E") then Ok ∅
  else Raise (ProviderError 404).

Definition fixture_info (ticker : string) : res (gmap string string) :=
  if decide (ticker = "A") then Ok (<["sector" := "Technology"]> ∅)
  else if decide (ticker = "B") then Ok ∅
  else Raise (ProviderError 500).

(** A run on the three tickers of the fixture, two sectors. *)
Definition fixture_run : res (ref * ref * ref) * world :=
  calculate_indicators pad fixture_history fixture_info ["A"; "B"; "C"] 0
    (mkWorld [] []).

Definition fixture_table : ind_frame :=
  match heap fixture_run.2 !! 1%nat with
  | Some (IFrame t) => t
  | _ => mkInd [] []
  end.

Definition fixture_sector_frame : sector_frame :=
  match heap fixture_run.2 !! 6%nat with
  | Some (SFrame s) => s
  | _ => mkSec [] []
  end.

(** Three tickers over five minutes: A rises every minute, B falls every
    minute, C is flat. *)
Definition scenario_frame : ohlcv_frame :=
  mkFrame [570; 571; 572; 573; 574]
    [("A", [Some (bar 10 1); Some (bar 11 1); Some (bar 12 1); Some (bar 13 1);
            Some (bar 14 1)]);
     ("B", [Some (bar 10 1); Some (bar 9 1); Some (bar 8 1); Some (bar 7 1);
            Some (bar 6 1)]);
     ("C", [Some (bar 10 1); Some (bar 10 1); Some (bar 10 1); Some (bar 10 1);
            Some (bar 10 1)])].

Definition fixture_combined : ohlcv_frame :=
  match heap fixture_run.2 !! 0%nat with
  | Some (OFrame d) => d
  | _ => mkFrame [] []
  end.

(** ** Columns, one ticker at a time *)

Definition column_length (c : column) : nat :=
  match c with
  | NCol l => length l
  | FCol l => length l
  end.

(** The volume column of a reindexed series. *)
Definition vols (col : aligned) : list (option Z) :=
  (fun r : option Bar => Volume <$> r) <$> col.

(** The volume of one ticker, kept in the periods in which its price change
    satisfies [p] and NaN elsewhere. *)
Definition masked_volume (fm : fill_method) (p : fl → bool) (col : aligned)
  : list (option Z) :=
  zip_with (fun (v : option Z) (b : bool) => if b then v else None)
    (vols col) (p <$> pct_change_col fm (closes col)).

(** All volumes of a frame are non-negative. *)
Definition volumes_nonneg (d : ohlcv_frame) : Prop :=
  ∀ (c : string * aligned) (b : Bar), c ∈ f_cols d → Some b ∈ c.2 → 0 <= Volume b.

(** No cell of the frame is missing. *)
Definition gap_free (d : ohlcv_frame) : Prop :=
  ∀ c : string * aligned, c ∈ f_cols d → Forall is_Some c.2.

(** A run in which D fails, E has no bar and A is listed twice. *)
Definition listed_twice_run : res (ref * ref * ref) * world :=
  calculate_indicators pad fixture_history fixture_info ["A"; "D"; "B"; "E"; "A"] 0
    (mkWorld [] []).

Definition listed_twice_combined : ohlcv_frame :=
  match heap listed_twice_run.2 !! 0%nat with
  | Some (OFrame d) => d
  | _ => mkFrame [] []
  end.

(** The scenario frame with its tickers in the opposite order. *)
Definition reordered_frame : ohlcv_frame :=
  mkFrame (f_index scenario_frame) (reverse (f_cols scenario_frame)).

(** * Properties *)

(** ** The session window and the Time Index *)

Lemma market_open_close (d : date) :
  get_market_open_close d = (1440 * d + 570, 1440 * d + 750).
Proof.
  unfold get_market_open_close, replace_hm, combine_midnight.
  assert (H1 : 1440 * d / 1440 = d) by (rewrite Z.mul_comm; apply Z.div_mul; lia).
  rewrite H1.
  assert (H2 : (1440 * d + 60 * 9 + 30) / 1440 = d)
    by (symmetry; apply (Z.div_unique _ _ _ 570); lia).
  rewrite H2. f_equal; lia.
Qed.

Lemma date_range_minutes (a n : Z) :
  0 <= n →
  date_range a (a + n) 1 = (fun i => a + i) <$> seqZ 0 (n + 1).
Proof.
  intros Hn. unfold date_range.
  destruct (decide (a <= a + n)) as [_|]; [|lia].
  replace ((a + n - a) / 1 + 1) with (n + 1) by (rewrite Z.div_1_r; lia).
  apply list_fmap_ext. intros _ i _. lia.
Qed.

Lemma common_index_minutes (d : date) :
  common_index d = (fun i => 1440 * d + 570 + i) <$> seqZ 0 181.
Proof.
  unfold common_index. rewrite market_open_close. cbn [fst snd].
  replace (1440 * d + 750) with (1440 * d + 570 + 180) by lia.
  by rewrite date_range_minutes.
Qed.

Lemma common_index_length (d : date) : length (common_index d) = 181%nat.
Proof. rewrite common_index_minutes, length_fmap, length_seqZ. reflexivity. Qed.

Lemma common_index_lookup (d : date) (k : nat) :
  (k < 181)%nat →
  common_index d !! k = Some (1440 * d + 570 + Z.of_nat k).
Proof.
  intros Hk. rewrite common_index_minutes, list_lookup_fmap.
  rewrite lookup_seqZ_lt by lia. cbn. f_equal.
Qed.

Lemma elem_of_common_index (d : date) (t : datetime) :
  t ∈ common_index d ↔ 1440 * d + 570 <= t <= 1440 * d + 750.
Proof.
  rewrite common_index_minutes, list_elem_of_fmap. split.
  - intros (i & -> & Hi). apply elem_of_seqZ in Hi. lia.
  - intros Ht. exists (t - (1440 * d + 570)). split; [lia|].
    apply elem_of_seqZ. lia.
Qed.

(** C2, as stated, fails: on session date 0 the Time Index has 181 entries,
    not 180, and its last entry is the window end (open + 3 hours). *)
Lemma C2_time_index_not_half_open :
  ¬ (length (common_index 0) = 180%nat
     ∧ (get_market_open_close 0).2 ∉ common_index 0).
Proof.
  intros [Hlen _]. rewrite common_index_length in Hlen. discriminate.
Qed.

(** ** Running computations on the store *)

Lemma bind_ok {A B} (m : M A) (f : A → M B) (w w' : world) (a : A) :
  m w = (Ok a, w') → (m ≫= f) w = f a w'.
Proof. intros H. unfold mbind, M_bind. by rewrite H. Qed.

Lemma load_ohlcv_run (w : world) (r : ref) (d : ohlcv_frame) :
  heap w !! r = Some (OFrame d) → load_ohlcv r w = (Ok d, w).
Proof.
  intros H. unfold load_ohlcv, load, mbind, M_bind. by rewrite H.
Qed.

Lemma load_ind_run (w : world) (r : ref) (t : ind_frame) :
  heap w !! r = Some (IFrame t) → load_ind r w = (Ok t, w).
Proof.
  intros H. unfold load_ind, load, mbind, M_bind. by rewrite H.
Qed.

Lemma load_sector_run (w : world) (r : ref) (s : sector_frame) :
  heap w !! r = Some (SFrame s) → load_sector r w = (Ok s, w).
Proof.
  intros H. unfold load_sector, load, mbind, M_bind. by rewrite H.
Qed.

Lemma lookup_snoc (h : list obj) (o : obj) : (h ++ [o]) !! length h = Some o.
Proof. by rewrite list_lookup_middle. Qed.

Lemma insert_snoc (h : list obj) (o o' : obj) :
  <[length h := o']> (h ++ [o]) = h ++ [o'].
Proof.
  rewrite insert_app_r_alt by lia. by rewrite Nat.sub_diag.
Qed.

(** Assignments to, and reads from, the table allocated last. *)
Lemma setitem_last (h : list obj) fs (t : ind_frame) (name : string) (col : column) :
  setitem (length h) name col (mkWorld (h ++ [IFrame t]) fs)
  = (Ok tt, mkWorld (h ++ [IFrame (mkInd (i_index t) (dict_set name col (i_cols t)))]) fs).
Proof.
  unfold setitem. erewrite bind_ok; [|apply load_ind_run; apply lookup_snoc].
  unfold store. cbn [heap files]. by rewrite insert_snoc.
Qed.

Lemma getitem_last (h : list obj) fs (t : ind_frame) (name : string) (col : column) :
  dict_get name (i_cols t) = Some col →
  getitem (length h) name (mkWorld (h ++ [IFrame t]) fs)
  = (Ok col, mkWorld (h ++ [IFrame t]) fs).
Proof.
  intros H. unfold getitem.
  erewrite bind_ok; [|apply load_ind_run; apply lookup_snoc].
  by rewrite H.
Qed.

Lemma calculate_market_indicators_run (fm : fill_method) (w : world) (r : ref)
    (d : ohlcv_frame) :
  heap w !! r = Some (OFrame d) →
  calculate_market_indicators fm r w
  = (Ok (length (heap w)),
     mkWorld (heap w ++ [IFrame (indicator_table fm d)]) (files w)).
Proof.
  intros Hr. unfold calculate_market_indicators.
  erewrite bind_ok; [|by apply load_ohlcv_run].
  erewrite bind_ok; [|reflexivity].
  repeat first
    [ erewrite bind_ok; [|apply setitem_last]
    | erewrite bind_ok; [|apply getitem_last; reflexivity] ].
  reflexivity.
Qed.

(** ** Rows of a frame *)

Lemma row_total_fmap {A} (g : A → Z) (cols : list (string * list A)) (k : nat) :
  row_total ((fun c : string * list A => (c.1, g <$> c.2)) <$> cols) k
  = col_sum g cols k.
Proof.
  unfold row_total, col_sum. rewrite <- list_fmap_compose. f_equal.
  apply list_fmap_ext. intros _ c _. cbn. rewrite list_lookup_fmap.
  by destruct (c.2 !! k).
Qed.

Lemma sum_axis1_lookup {A} (g : A → Z) (d : frame A) (k : nat) :
  (k < length (f_index d))%nat →
  sum_axis1 (frame_map g d) !! k = Some (col_sum g (f_cols d) k).
Proof.
  intros Hk. unfold sum_axis1, frame_map. cbn [f_index f_cols].
  rewrite list_lookup_fmap, lookup_seq_lt by done. cbn.
  by rewrite row_total_fmap.
Qed.

Lemma sum_axis1_length (d : frame Z) : length (sum_axis1 d) = length (f_index d).
Proof. unfold sum_axis1. by rewrite length_fmap, length_seq. Qed.

Lemma frame_map_map {A B C} (f : A → B) (g : B → C) (d : frame A) :
  frame_map g (frame_map f d) = frame_map (g ∘ f) d.
Proof.
  unfold frame_map. cbn [f_index f_cols]. f_equal.
  rewrite <- list_fmap_compose. apply list_fmap_ext. intros _ c _. cbn.
  by rewrite <- list_fmap_compose.
Qed.

Lemma count_axis1_lookup {A} (p : A → bool) (d : frame A) (k : nat) :
  (k < length (f_index d))%nat →
  count_axis1 (frame_map p d) !! k = Some (col_sum (Z.b2z ∘ p) (f_cols d) k).
Proof.
  intros Hk. unfold count_axis1. rewrite frame_map_map.
  by apply sum_axis1_lookup.
Qed.

Lemma count_axis1_length (d : frame bool) :
  length (count_axis1 d) = length (f_index d).
Proof. unfold count_axis1. by rewrite sum_axis1_length. Qed.

Lemma col_sum_cons {A} (g : A → Z) (c : string * list A) cols (k : nat) :
  col_sum g (c :: cols) k = from_option g 0 (c.2 !! k) + col_sum g cols k.
Proof. reflexivity. Qed.


Lemma col_sum_b2z_nonneg {A} (p : A → bool) (cols : list (string * list A)) (k : nat) :
  0 <= col_sum (Z.b2z ∘ p) cols k.
Proof.
  induction cols as [|c cols IH]; [by cbn|].
  rewrite col_sum_cons. destruct (c.2 !! k) as [x|]; cbn; [|lia].
  destruct (p x); cbn; lia.
Qed.

Lemma col_sum_b2z_pos {A} (p : A → bool) (cols : list (string * list A)) (k : nat) :
  0 < col_sum (Z.b2z ∘ p) cols k
  ↔ ∃ c x, c ∈ cols ∧ c.2 !! k = Some x ∧ p x = true.
Proof.
  induction cols as [|c cols IH].
  - cbn. split; [lia|]. intros (c & x & Hc & _). by apply elem_of_nil in Hc.
  - rewrite col_sum_cons. pose proof (col_sum_b2z_nonneg p cols k) as Hnn. split.
    + intros Hpos. destruct (c.2 !! k) as [x|] eqn:Hx; cbn in Hpos.
      * destruct (p x) eqn:Hp.
        -- exists c, x. split; [left|done].
        -- cbn in Hpos. destruct IH as [IH _].
           destruct IH as (c' & x' & Hc' & Hx' & Hp'); [lia|].
           exists c', x'. split; [by right|done].
      * destruct IH as [IH _].
        destruct IH as (c' & x' & Hc' & Hx' & Hp'); [lia|].
        exists c', x'. split; [by right|done].
    + intros (c' & x & Hc' & Hx & Hp). apply elem_of_cons in Hc' as [->|Hc'].
      * rewrite Hx. cbn. rewrite Hp. cbn. lia.
      * assert (0 < col_sum (Z.b2z ∘ p) cols k) by (apply IH; eauto).
        destruct (c.2 !! k) as [y|]; cbn; [destruct (p y); cbn|]; lia.
Qed.

(** ** Signs of a price change *)




(** ** Cumulative sums *)

Lemma cumsum_from_length (acc : Z) (l : list Z) :
  length (cumsum_from acc l) = length l.
Proof. revert acc. induction l as [|x l IH]; intros acc; cbn; [done|by rewrite IH]. Qed.

Lemma cumsum_length (l : list Z) : length (cumsum l) = length l.
Proof. apply cumsum_from_length. Qed.

Lemma cumsum_from_lookup (acc : Z) (l : list Z) (k : nat) :
  (k < length l)%nat →
  cumsum_from acc l !! k = Some (acc + foldr Z.add 0 (take (S k) l)).
Proof.
  revert acc k. induction l as [|x l IH]; intros acc k Hk; cbn in Hk; [lia|].
  destruct k as [|k].
  - cbn. rewrite take_0. cbn. f_equal. lia.
  - cbn [cumsum_from]. rewrite lookup_cons_ne_0 by done. cbn [Nat.pred].
    rewrite IH by lia. cbn [take foldr]. f_equal. lia.
Qed.

Lemma cumsum_lookup (l : list Z) (k : nat) :
  (k < length l)%nat →
  cumsum l !! k = Some (foldr Z.add 0 (take (S k) l)).
Proof.
  intros Hk. unfold cumsum. rewrite cumsum_from_lookup by done. f_equal.
Qed.

Lemma cumsum_lookup_0 (l : list Z) (x : Z) :
  l !! 0%nat = Some x → cumsum l !! 0%nat = Some (0 + x).
Proof. destruct l as [|y l]; cbn; [done|]. by intros [= ->]. Qed.

Lemma cumsum_lookup_S (l : list Z) (k : nat) (s x : Z) :
  cumsum l !! k = Some s → l !! S k = Some x → cumsum l !! S k = Some (s + x).
Proof.
  intros Hs Hx.
  assert (Hk : (S k < length l)%nat) by (by eapply lookup_lt_Some).
  rewrite cumsum_lookup in Hs by lia. injection Hs as <-.
  rewrite cumsum_lookup by lia. f_equal.
  rewrite (take_S_r l (S k) x) by done.
  rewrite foldr_app. cbn [foldr].
  generalize (take (S k) l). intros l'.
  induction l' as [|y l' IH]; cbn; lia.
Qed.

(** ** The indicator table of a frame *)

Lemma returns_indicator_table (fm : fill_method) (w : world) (r : ref)
    (d : ohlcv_frame) :
  heap w !! r = Some (OFrame d) →
  returns_table fm w r (indicator_table fm d).
Proof.
  intros Hr. eexists _, _. split.
  - by apply calculate_market_indicators_run.
  - cbn [heap]. apply lookup_snoc.
Qed.

Lemma zip_with_sub_lookup (a b : list Z) (k : nat) (x y : Z) :
  a !! k = Some x → b !! k = Some y → zip_with Z.sub a b !! k = Some (x - y).
Proof. intros Ha Hb. rewrite lookup_zip_with, Ha. cbn. by rewrite Hb. Qed.

Lemma Qsign_inject_Z (z : Z) : Qsign (inject_Z z) = (z ?= 0)%Z.
Proof. unfold Qsign, Qcompare. cbn. by rewrite Z.mul_1_r. Qed.

Lemma fl_div_by_zero (u : Z) :
  fl_div (fl_of_Z u) (fl_of_Z 0)
  = match (u ?= 0)%Z with Eq => FNaN | Gt => FPInf | Lt => FNInf end.
Proof.
  unfold fl_div, fl_of_Z, Qfdiv. rewrite !Qsign_inject_Z. cbn.
  by destruct (u ?= 0)%Z.
Qed.

(** ** The routine on the fixtures *)

Example scenario_rise_fall_flat (fm : fill_method) :
  ∃ t : ind_frame,
    returns_table fm (mkWorld [OFrame scenario_frame] []) 0 t
    ∧ int_column t "Advances" = Some [0; 1; 1; 1; 1]
    ∧ int_column t "Declines" = Some [0; 1; 1; 1; 1]
    ∧ int_column t "Unchanged" = Some [0; 1; 1; 1; 1]
    ∧ int_column t "AD_Line" = Some [0; 0; 0; 0; 0]
    ∧ int_column t "VOLD" = Some [0; 0; 0; 0; 0].
Proof.
  exists (indicator_table fm scenario_frame).
  split; [by apply returns_indicator_table|].
  destruct fm; vm_compute; done.
Qed.

(** The gap of B at 9:32: counted as unchanged when [pct_change] pads, not
    counted (there and in the next minute) when it does not. *)
Example fixture_counts_pad :
  ∃ t : ind_frame,
    returns_table pad fixture_world 0 t
    ∧ int_column t "Advances" = Some [0; 1; 1; 1]
    ∧ int_column t "Declines" = Some [0; 1; 0; 1]
    ∧ int_column t "Unchanged" = Some [0; 1; 2; 1]
    ∧ int_column t "UVOL" = Some [0; 200; 500; 550]
    ∧ int_column t "DVOL" = Some [0; 500; 500; 1100].
Proof.
  exists (indicator_table pad fixture_frame).
  split; [by apply returns_indicator_table|]. vm_compute. done.
Qed.

Example fixture_counts_no_fill :
  ∃ t : ind_frame,
    returns_table no_fill fixture_world 0 t
    ∧ int_column t "Advances" = Some [0; 1; 1; 1]
    ∧ int_column t "Declines" = Some [0; 1; 0; 0]
    ∧ int_column t "Unchanged" = Some [0; 1; 1; 1]
    ∧ int_column t "UVOL" = Some [0; 200; 500; 550]
    ∧ int_column t "DVOL" = Some [0; 500; 500; 500].
Proof.
  exists (indicator_table no_fill fixture_frame).
  split; [by apply returns_indicator_table|]. vm_compute. done.
Qed.

Lemma volume_per_period_length fm p d :
  length (volume_per_period fm p d) = length (f_index d).
Proof.
  unfold volume_per_period, nansum_axis1. by rewrite sum_axis1_length.
Qed.








(** ** Price changes, column by column *)




(** The first period has no prior close: its change is NaN. *)
Lemma pct_change_col_first (fm : fill_method) (col : list (option Q)) (x : fl) :
  pct_change_col fm col !! 0%nat = Some x → x = FNaN.
Proof.
  unfold pct_change_col.
  destruct fm; (destruct col as [|[a|] col]; cbn; [done|by intros [= <-]..]).
Qed.

Lemma pct_change_cols (fm : fill_method) (d : ohlcv_frame) :
  f_cols (pct_change fm (xs_close d))
  = (fun c : string * aligned =>
       (c.1, pct_change_col fm ((fun r : option Bar => Close <$> r) <$> c.2)))
      <$> f_cols d.
Proof.
  unfold pct_change, xs_close, frame_map. cbn [f_cols].
  by rewrite <- list_fmap_compose.
Qed.


Lemma col_sum_b2z_zero {A} (p : A → bool) (cols : list (string * list A)) (k : nat) :
  (∀ c x, c ∈ cols → c.2 !! k = Some x → p x = false) →
  col_sum (Z.b2z ∘ p) cols k = 0.
Proof.
  intros H. pose proof (col_sum_b2z_nonneg p cols k) as Hnn.
  destruct (decide (0 < col_sum (Z.b2z ∘ p) cols k)) as [Hpos|]; [|lia].
  apply col_sum_b2z_pos in Hpos as (c & x & Hc & Hx & Hp).
  rewrite (H c x Hc Hx) in Hp. discriminate.
Qed.

Lemma first_period_not_counted (fm : fill_method) (d : ohlcv_frame) (p : fl → bool) :
  p FNaN = false →
  col_sum (Z.b2z ∘ p) (f_cols (pct_change fm (xs_close d))) 0 = 0.
Proof.
  intros Hp. apply col_sum_b2z_zero. intros c x Hc Hx.
  rewrite pct_change_cols in Hc. apply list_elem_of_fmap in Hc as (c' & -> & _).
  cbn in Hx. by rewrite (pct_change_col_first _ _ _ Hx).
Qed.



(** ** Gaps *)

Lemma reindex_lookup (s : series) (index : list datetime) (k : nat) (t : datetime) :
  index !! k = Some t → reindex s index !! k = Some (s !! t).
Proof. intros H. unfold reindex. by rewrite list_lookup_fmap, H. Qed.

Lemma reindex_length (s : series) (index : list datetime) :
  length (reindex s index) = length index.
Proof. unfold reindex. by rewrite length_fmap. Qed.














(** The same run when [pct_change] does not fill: B is not counted at 9:32. *)
Example gap_not_counted_without_fill :
  ∃ (w' : world) (tbl : ind_frame),
    calculate_indicators no_fill fixture_history fixture_info ["B"] 0 (mkWorld [] [])
    = (Ok (0, 1, 4)%nat, w')
    ∧ heap w' !! 1%nat = Some (IFrame tbl)
    ∧ int_cell tbl "Advances" 2 = 0
    ∧ int_cell tbl "Declines" 2 = 0
    ∧ int_cell tbl "Unchanged" 2 = 0.
Proof.
  pose (out := calculate_indicators no_fill fixture_history fixture_info ["B"] 0
                 (mkWorld [] [])).
  exists out.2,
    (match heap out.2 !! 1%nat with Some (IFrame t) => t | _ => mkInd [] [] end).
  vm_compute. done.
Qed.


(** ** Dictionaries *)

Lemma dict_get_set_eq {V} (k : string) (v : V) (d : list (string * V)) :
  dict_get k (dict_set k v d) = Some v.
Proof.
  induction d as [|[k' v'] d IH]; cbn.
  - by rewrite decide_True.
  - destruct (decide (k' = k)) as [->|Hne]; cbn.
    + by rewrite decide_True.
    + by rewrite decide_False.
Qed.

Lemma dict_get_set_ne {V} (k k' : string) (v : V) (d : list (string * V)) :
  k ≠ k' → dict_get k' (dict_set k v d) = dict_get k' d.
Proof.
  intros Hne. induction d as [|[k0 v0] d IH]; cbn.
  - by rewrite decide_False.
  - destruct (decide (k0 = k)) as [->|Hne0]; cbn.
    + by rewrite !decide_False.
    + destruct (decide (k0 = k')); [done|exact IH].
Qed.

Lemma dict_get_is_Some {V} (k : string) (d : list (string * V)) :
  is_Some (dict_get k d) ↔ k ∈ dict_keys d.
Proof.
  unfold dict_keys. induction d as [|[k' v'] d IH]; cbn.
  - split; [by intros [? ?]|by intros ?%elem_of_nil].
  - rewrite elem_of_cons. destruct (decide (k' = k)) as [->|Hne].
    + split; [by left|by eexists].
    + rewrite IH. split; [by right|]. by intros [->|?].
Qed.


Lemma dict_set_fresh {V} (k : string) (v : V) (d : list (string * V)) :
  k ∉ dict_keys d → dict_set k v d = d ++ [(k, v)].
Proof.
  unfold dict_keys. induction d as [|[k' v'] d IH]; cbn; [done|].
  rewrite not_elem_of_cons. intros [Hne Hnin].
  rewrite decide_False by done. by rewrite IH.
Qed.

Lemma dict_keys_set {V W} (k : string) (v : V) (v' : W)
    (d : list (string * V)) (d' : list (string * W)) :
  dict_keys d = dict_keys d' →
  dict_keys (dict_set k v d) = dict_keys (dict_set k v' d').
Proof.
  unfold dict_keys. revert d'.
  induction d as [|[k0 v0] d IH]; intros [|[k1 v1] d'] H; cbn in *; try done.
  injection H as -> H. destruct (decide (k1 = k)); cbn; [by rewrite H|].
  f_equal. by apply IH.
Qed.

Lemma dict_keys_set_elem {V} (k k' : string) (v : V) (d : list (string * V)) :
  k' ∈ dict_keys (dict_set k v d) ↔ k' = k ∨ k' ∈ dict_keys d.
Proof.
  rewrite <- !dict_get_is_Some. destruct (decide (k = k')) as [->|Hne].
  - rewrite dict_get_set_eq. split; [by left|by eexists].
  - rewrite dict_get_set_ne by done. split; [by right|]. by intros [->|?].
Qed.

Lemma dict_keys_set_NoDup {V} (k : string) (v : V) (d : list (string * V)) :
  NoDup (dict_keys d) → NoDup (dict_keys (dict_set k v d)).
Proof.
  unfold dict_keys. induction d as [|[k' v'] d IH]; cbn.
  - intros _. apply NoDup_singleton.
  - rewrite NoDup_cons. intros [Hnin Hnd].
    destruct (decide (k' = k)) as [->|Hne]; cbn.
    + by apply NoDup_cons.
    + apply NoDup_cons. split; [|by apply IH].
      intros Hin. apply (dict_keys_set_elem k k' v d) in Hin as [->|Hin]; done.
Qed.

(** ** The fetch loop *)

Section FetchLoop.

Variable history : string → datetime → datetime → res series.
Variable info : string → res (gmap string string).

Lemma get_sector_run (ticker : string) (w : world) :
  get_sector info ticker w = (Ok (sector_of info ticker), w).
Proof.
  unfold get_sector, sector_of, attempt, lift_res, mbind, M_bind, mret, M_ret.
  by destruct (info ticker).
Qed.

Lemma fetch_run (start_time end_time : datetime) (ticker : string)
    (st : list (string * series) * list (string * string)) (w : world) :
  fetch history info start_time end_time ticker st w
  = (Ok (fetched history info start_time end_time st ticker), w).
Proof.
  unfold fetch, fetched. destruct st as [all_data sectors]. cbn [fst snd].
  unfold attempt, lift_res, mbind, M_bind, mret, M_ret.
  destruct (history ticker start_time end_time) as [data|e]; [|done].
  destruct (decide (size data = 0%nat)); [done|].
  by rewrite get_sector_run.
Qed.

Lemma fetch_loop_run (start_time end_time : datetime) (tickers : list string)
    (st : list (string * series) * list (string * string)) (w : world) :
  for_each tickers (fetch history info start_time end_time) st w
  = (Ok (foldl (fetched history info start_time end_time) st tickers), w).
Proof.
  revert st. induction tickers as [|t tickers IH]; intros st; [done|].
  cbn [for_each foldl]. erewrite bind_ok; [|apply fetch_run]. apply IH.
Qed.

Lemma fetched_ok (start_time end_time : datetime)
    (st : list (string * series) * list (string * string)) (ticker : string) :
  dicts_ok st → dicts_ok (fetched history info start_time end_time st ticker).
Proof.
  intros [Hk Hnd]. unfold fetched.
  destruct (history ticker start_time end_time) as [data|e]; [|done].
  destruct (decide (size data = 0%nat)); [done|]. split; cbn [fst snd].
  - by apply dict_keys_set.
  - by apply dict_keys_set_NoDup.
Qed.

Lemma fetch_loop_ok (start_time end_time : datetime) (tickers : list string)
    (st : list (string * series) * list (string * string)) :
  dicts_ok st →
  dicts_ok (foldl (fetched history info start_time end_time) st tickers).
Proof.
  revert st. induction tickers as [|t tickers IH]; intros st Hst; [done|].
  cbn [foldl]. apply IH. by apply fetched_ok.
Qed.

End FetchLoop.

(** ** The per-sector loop *)

Lemma select_cols_pick {A} (cols : list (string * list A)) (labels : list string) :
  (∀ t : string, t ∈ labels → t ∈ dict_keys cols) →
  select_cols cols labels = Ok (pick cols labels).
Proof.
  induction labels as [|t labels IH]; intros H; [done|]. cbn.
  destruct (proj2 (dict_get_is_Some t cols)) as [c Hc].
  { apply H. by left. }
  rewrite Hc, IH; [done|]. intros t' Ht'. apply H. by right.
Qed.

Lemma sector_tickers_subseteq (sectors : list (string * string)) (sector t : string) :
  t ∈ sector_tickers sectors sector → t ∈ dict_keys sectors.
Proof.
  unfold sector_tickers, dict_keys. rewrite !list_elem_of_fmap.
  intros (p & -> & Hp). apply list_elem_of_filter in Hp as [_ Hp]. by exists p.
Qed.

Section SectorLoop.

Variable fm : fill_method.
Variable comb_ref : ref.
Variable comb : ohlcv_frame.
Variable sectors : list (string * string).
Hypothesis sectors_keys : dict_keys sectors = dict_keys (f_cols comb).

Lemma tables_at_mono (w w' : world) (acc : list (string * ref)) :
  heap w `prefix_of` heap w' → tables_at fm comb sectors w acc → tables_at fm comb sectors w' acc.
Proof.
  intros Hpre Hacc. unfold tables_at in *.
  eapply Forall_impl; [exact Hacc|]. intros p Hp. simpl in *.
  by apply (prefix_lookup_Some (heap w)).
Qed.

Lemma tables_at_set (w : world) (acc : list (string * ref)) (sector : string) (r : ref) :
  tables_at fm comb sectors w acc → heap w !! r = Some (IFrame (sector_table fm comb sectors sector)) →
  tables_at fm comb sectors w (dict_set sector r acc).
Proof.
  intros Hacc Hr. unfold tables_at in *.
  induction acc as [|[s' r'] acc IH]; cbn.
  - by constructor.
  - apply Forall_cons in Hacc as [Hhd Htl].
    destruct (decide (s' = sector)); constructor; auto.
Qed.

Lemma sector_step_run (sector : string) (acc : list (string * ref)) (w : world) :
  heap w !! comb_ref = Some (OFrame comb) →
  sector_step fm comb_ref sectors sector acc w
  = (Ok (dict_set sector (S (length (heap w))) acc),
     mkWorld (heap w ++ [OFrame (sub_frame comb sectors sector);
                         IFrame (sector_table fm comb sectors sector)]) (files w)).
Proof.
  intros Hc. unfold sector_step, getitem_tickers.
  erewrite bind_ok; cycle 1.
  { erewrite bind_ok; [|by apply load_ohlcv_run].
    erewrite bind_ok; cycle 1.
    { unfold lift_res. rewrite select_cols_pick; [reflexivity|].
      intros t Ht. rewrite <- sectors_keys. by eapply sector_tickers_subseteq. }
    reflexivity. }
  erewrite bind_ok; cycle 1.
  { apply calculate_market_indicators_run. cbn [heap]. apply lookup_snoc. }
  cbn [heap files]. rewrite length_app, Nat.add_1_r, <- app_assoc. reflexivity.
Qed.

Lemma sector_loop_run (todo : list string) (acc : list (string * ref)) (w : world) :
  heap w !! comb_ref = Some (OFrame comb) →
  NoDup todo →
  (∀ s : string, s ∈ todo → s ∉ dict_keys acc) →
  tables_at fm comb sectors w acc →
  ∃ (acc' : list (string * ref)) (w' : world),
    for_each todo (sector_step fm comb_ref sectors) acc w = (Ok acc', w')
    ∧ heap w `prefix_of` heap w'
    ∧ files w' = files w
    ∧ dict_keys acc' = dict_keys acc ++ todo
    ∧ tables_at fm comb sectors w' acc'.
Proof.
  revert acc w. induction todo as [|s todo IH]; intros acc w Hc Hnd Hfresh Hacc.
  - exists acc, w. by rewrite app_nil_r.
  - apply NoDup_cons in Hnd as [Hs Hnd].
    set (w1 := mkWorld (heap w ++ [OFrame (sub_frame comb sectors s);
                                   IFrame (sector_table fm comb sectors s)]) (files w)).
    assert (Hpre : heap w `prefix_of` heap w1) by (by apply prefix_app_r).
    destruct (IH (dict_set s (S (length (heap w))) acc) w1)
      as (acc' & w' & Hrun & Hpre' & Hfiles & Hkeys & Htabs).
    + by eapply prefix_lookup_Some.
    + done.
    + intros s' Hs' Hin. apply dict_keys_set_elem in Hin as [->|Hin]; [done|].
      apply (Hfresh s'); [by right|done].
    + apply tables_at_set; [by eapply tables_at_mono|].
      cbn [heap w1]. rewrite (lookup_app_r (heap w)) by lia.
      by replace (S (length (heap w)) - length (heap w))%nat with 1%nat by lia.
    + exists acc', w'. cbn [for_each].
      erewrite bind_ok; [|by apply sector_step_run].
      split; [exact Hrun|]. split; [by etrans|]. split; [done|].
      split; [|done]. rewrite Hkeys, dict_set_fresh.
      * unfold dict_keys. by rewrite fmap_app, <- app_assoc.
      * apply Hfresh. by left.
Qed.

Lemma load_tables_from (l : list (string * ref)) (pre : list (string * ind_frame))
    (w : world) :
  tables_at fm comb sectors w l →
  for_each l
    (fun (p : string * ref) (acc : list (string * ind_frame)) =>
       t ← load_ind p.2; mret (acc ++ [(p.1, t)])) pre w
  = (Ok (pre ++ ((fun p : string * ref => (p.1, sector_table fm comb sectors p.1)) <$> l)), w).
Proof.
  revert pre. induction l as [|p l IH]; intros pre Hl.
  - cbn. by rewrite app_nil_r.
  - apply Forall_cons in Hl as [Hp Hl]. cbn [for_each].
    erewrite bind_ok; cycle 1.
    { erewrite bind_ok; [|by apply load_ind_run]. reflexivity. }
    rewrite IH by done. by rewrite <- app_assoc.
Qed.

Lemma load_tables_run (acc : list (string * ref)) (w : world) :
  tables_at fm comb sectors w acc →
  load_tables acc w
  = (Ok ((fun s : string => (s, sector_table fm comb sectors s)) <$> dict_keys acc), w).
Proof.
  intros H. unfold load_tables. rewrite load_tables_from by done. cbn [app].
  unfold dict_keys. by rewrite <- list_fmap_compose.
Qed.

Lemma concat_axis1_run (acc : list (string * ref)) (w : world) (s0 : string)
    (l : list string) :
  tables_at fm comb sectors w acc → dict_keys acc = s0 :: l →
  concat_axis1 acc w
  = (Ok (length (heap w)),
     mkWorld (heap w ++ [SFrame (mkSec (f_index comb)
                (concat_tables ((fun s : string => (s, sector_table fm comb sectors s)) <$> s0 :: l)))])
       (files w)).
Proof.
  intros Hacc Hk. unfold concat_axis1.
  erewrite bind_ok; [|by apply load_tables_run]. by rewrite Hk.
Qed.

End SectorLoop.

(** ** The whole run *)


Lemma concat_tables_labels (fm : fill_method) (comb : ohlcv_frame)
    (sectors : list (string * string)) (l : list string) :
  fst <$> concat_tables ((fun s : string => (s, sector_table fm comb sectors s)) <$> l)
  = from_product l indicator_names.
Proof.
  unfold from_product. induction l as [|s l IH]; [done|].
  cbn [fmap list_fmap concat_tables]. rewrite fmap_app, IH. reflexivity.
Qed.

Lemma set_sector_labels_last (h : list obj) fs (s : sector_frame) :
  set_sector_labels (length h) (fst <$> s_cols s) (mkWorld (h ++ [SFrame s]) fs)
  = (Ok tt, mkWorld (h ++ [SFrame s]) fs).
Proof.
  unfold set_sector_labels.
  erewrite bind_ok; [|apply load_sector_run; apply lookup_snoc].
  rewrite decide_True by (by rewrite !length_fmap).
  unfold store. cbn [heap files]. rewrite insert_snoc, zip_fst_snd.
  by destruct s.
Qed.

Lemma set_ticker_labels_last (h : list obj) fs (d : ohlcv_frame) :
  set_ticker_labels (length h) (dict_keys (f_cols d)) (mkWorld (h ++ [OFrame d]) fs)
  = (Ok tt, mkWorld (h ++ [OFrame d]) fs).
Proof.
  unfold set_ticker_labels, dict_keys.
  erewrite bind_ok; [|apply load_ohlcv_run; apply lookup_snoc].
  rewrite decide_True by (by rewrite !length_fmap).
  unfold store. cbn [heap files]. rewrite insert_snoc, zip_fst_snd.
  by destruct d.
Qed.

Lemma list_case_nonempty {A B} (l : list A) (a b : B) :
  l ≠ [] → match l with [] => a | _ :: _ => b end = b.
Proof. by destruct l. Qed.

Section WholeRun.

Variable fm : fill_method.
Variable history : string → datetime → datetime → res series.
Variable info : string → res (gmap string string).

Lemma fetch_all_ok (tickers : list string) (d : date) :
  dicts_ok (fetch_all history info tickers d).
Proof. apply fetch_loop_ok. split; [done|]. cbn. apply NoDup_nil_2. Qed.

Lemma calculate_indicators_empty (tickers : list string) (d : date) (w : world) :
  (fetch_all history info tickers d).1 = [] →
  calculate_indicators fm history info tickers d w
  = (Ok (length (heap w), S (length (heap w)), S (S (length (heap w)))),
     mkWorld (heap w ++ [empty_ohlcv; empty_indicators; empty_sector]) (files w)).
Proof.
  intros He. unfold calculate_indicators.
  erewrite bind_ok; [|apply fetch_loop_run]. fold (fetch_all history info tickers d).
  rewrite He. unfold alloc, mbind, M_bind, mret, M_ret. cbn [heap files].
  rewrite !length_app. cbn [length]. rewrite <- !app_assoc. cbn [app].
  rewrite !Nat.add_1_r. reflexivity.
Qed.

Lemma calculate_indicators_nonempty (tickers : list string) (d : date) (w : world) :
  (fetch_all history info tickers d).1 ≠ [] →
  ∃ (r3 : ref) (w' : world),
    calculate_indicators fm history info tickers d w
    = (Ok (length (heap w), S (length (heap w)), r3), w')
    ∧ heap w' !! length (heap w)
      = Some (OFrame (combined_frame d (fetch_all history info tickers d).1))
    ∧ heap w' !! S (length (heap w))
      = Some (IFrame (indicator_table fm (combined_frame d (fetch_all history info tickers d).1)))
    ∧ heap w' !! r3
      = Some (SFrame (mkSec (common_index d)
           (concat_tables
              ((fun s : string =>
                  (s, sector_table fm (combined_frame d (fetch_all history info tickers d).1)
                        (fetch_all history info tickers d).2 s))
                 <$> remove_dups (dict_values (fetch_all history info tickers d).2)))))
    ∧ heap w `prefix_of` heap w'
    ∧ files w' = files w.
Proof.
  intros Hne. pose proof (fetch_all_ok tickers d) as [Hkeys Hnd].
  set (all_data := (fetch_all history info tickers d).1) in *.
  set (sectors := (fetch_all history info tickers d).2) in *.
  set (comb := combined_frame d all_data).
  set (T := indicator_table fm comb).
  assert (Hck : dict_keys sectors = dict_keys (f_cols comb)).
  { rewrite <- Hkeys. unfold comb, combined_frame, dict_keys. cbn [f_cols].
    by rewrite <- list_fmap_compose. }
  (* the sector loop, on the store that holds the frame and its table *)
  set (w2 := mkWorld (heap w ++ [OFrame comb; IFrame T]) (files w)).
  assert (Hc2 : heap w2 !! length (heap w) = Some (OFrame comb)).
  { cbn [heap w2]. by rewrite (list_lookup_middle (heap w) _ (OFrame comb)). }
  destruct (sector_loop_run fm (length (heap w)) comb sectors Hck
              (remove_dups (dict_values sectors)) [] w2)
    as (acc & w3 & Hloop & Hpre3 & Hfiles3 & Hacc & Htabs).
  { exact Hc2. } { apply NoDup_remove_dups. }
  { intros s _ Hin. by apply elem_of_nil in Hin. } { constructor. }
  cbn [dict_keys fmap list_fmap app] in Hacc. fold (dict_keys acc) in Hacc.
  set (tables := (fun s : string => (s, sector_table fm comb sectors s))
                   <$> remove_dups (dict_values sectors)).
  set (S3 := mkSec (common_index d) (concat_tables tables)).
  (* at least one sector *)
  assert (Hsec : ∃ s0 l, remove_dups (dict_values sectors) = s0 :: l).
  { destruct (remove_dups (dict_values sectors)) as [|s0 l] eqn:E; [|by eauto].
    exfalso. destruct all_data as [|p all_data']; [done|].
    destruct sectors as [|[t sec] sectors']; [done|].
    assert (sec ∈ remove_dups (dict_values ((t, sec) :: sectors')))
      by (apply elem_of_remove_dups; left).
    rewrite E in H. by apply elem_of_nil in H. }
  destruct Hsec as (s0 & l & Hl).
  destruct acc as [|[s0' r0] acc']; [by rewrite Hl in Hacc|].
  assert (Hr0 : heap w3 !! r0 = Some (IFrame (sector_table fm comb sectors s0'))).
  { by apply Forall_cons in Htabs as [? _]. }
  assert (Hs0 : s0' = s0) by (rewrite Hl in Hacc; by injection Hacc).
  exists (length (heap w3)), (mkWorld (heap w3 ++ [SFrame S3]) (files w)).
  split.
  - unfold calculate_indicators.
    erewrite bind_ok; [|apply fetch_loop_run]. fold (fetch_all history info tickers d).
    fold all_data sectors. rewrite list_case_nonempty by done.
    fold (combined_frame d all_data). fold comb.
    erewrite bind_ok; [|reflexivity].
    erewrite bind_ok; cycle 1.
    { cbn [heap files].
      replace (dict_keys ((fun p0 : string * series =>
                 (p0.1, reindex p0.2 (common_index d))) <$> all_data))
        with (dict_keys (f_cols comb)) by reflexivity.
      apply set_ticker_labels_last. }
    erewrite bind_ok; cycle 1.
    { apply calculate_market_indicators_run. cbn [heap]. apply lookup_snoc. }
    cbn [heap files]. rewrite length_app, Nat.add_1_r, <- app_assoc. cbn [app].
    fold T. fold w2.
    erewrite bind_ok; [|exact Hloop].
    erewrite bind_ok; cycle 1.
    { rewrite (concat_axis1_run fm comb sectors _ w3 s0 l Htabs) by congruence.
      rewrite <- Hl, Hfiles3. fold tables. reflexivity. }
    erewrite bind_ok; cycle 1.
    { apply load_ind_run. cbn [heap]. rewrite lookup_app_l; [exact Hr0|].
      by eapply lookup_lt_Some. }
    change (dict_keys (i_cols (sector_table fm comb sectors s0')))
      with indicator_names.
    replace (dict_keys ((s0', r0) :: acc')) with (remove_dups (dict_values sectors))
      by (by rewrite Hacc).
    rewrite <- (concat_tables_labels fm comb sectors). fold tables.
    erewrite bind_ok; [|apply (set_sector_labels_last (heap w3) (files w) S3)].
    reflexivity.
  - cbn [heap files].
    assert (Hpre : heap w2 `prefix_of` heap w3 ++ [SFrame S3])
      by (etrans; [exact Hpre3|by apply prefix_app_r]).
    split; [by apply (prefix_lookup_Some (heap w2))|].
    split.
    { apply (prefix_lookup_Some (heap w2)); [|done]. cbn [heap w2].
      rewrite (lookup_app_r (heap w)) by lia.
      by replace (S (length (heap w)) - length (heap w))%nat with 1%nat by lia. }
    split; [apply lookup_snoc|]. split; [|done].
    etrans; [|exact Hpre]. cbn [heap w2]. by apply prefix_app_r.
Qed.

End WholeRun.

(** The Combined Frame at the end of a run in which some ticker has data,
    and the table computed from it. *)
Lemma run_combined_frame (fm : fill_method)
    (history : string → datetime → datetime → res series)
    (info : string → res (gmap string string))
    (tickers : list string) (d : date) (w w' : world) (r1 r2 r3 : ref)
    (comb : ohlcv_frame) :
  calculate_indicators fm history info tickers d w = (Ok (r1, r2, r3), w') →
  heap w' !! r1 = Some (OFrame comb) →
  f_cols comb ≠ [] →
  comb = combined_frame d (fetch_all history info tickers d).1
  ∧ heap w' !! r2 = Some (IFrame (indicator_table fm comb)).
Proof.
  intros Hrun Hcomb Hcols.
  destruct (decide ((fetch_all history info tickers d).1 = [])) as [He|Hne].
  - rewrite (calculate_indicators_empty fm history info tickers d w He) in Hrun.
    injection Hrun as <- <- <- <-. cbn [heap] in Hcomb.
    rewrite (list_lookup_middle (heap w) _ empty_ohlcv) in Hcomb by done.
    injection Hcomb as <-. done.
  - destruct (calculate_indicators_nonempty fm history info tickers d w Hne)
      as (r3' & w'' & Hrun' & H1 & H2 & _).
    rewrite Hrun' in Hrun. injection Hrun as <- <- <- <-.
    rewrite H1 in Hcomb. injection Hcomb as <-. done.
Qed.

(** The frames that a run hands to [calculate_market_indicators] have one
    cell per ticker and Time Index entry. *)
Lemma combined_frame_wf (d : date) (all_data : list (string * series)) :
  frame_wf (combined_frame d all_data).
Proof.
  unfold frame_wf, combined_frame. cbn [f_cols f_index].
  apply Forall_fmap, Forall_forall. intros p _. cbn. apply reindex_length.
Qed.

Lemma dict_get_elem_of {V} (k : string) (v : V) (d : list (string * V)) :
  dict_get k d = Some v → (k, v) ∈ d.
Proof.
  induction d as [|[k' v'] d IH]; cbn; [done|].
  destruct (decide (k' = k)) as [->|Hne].
  - intros [= ->]. by left.
  - intros H. right. by apply IH.
Qed.

Lemma sub_frame_wf (comb : ohlcv_frame) (sectors : list (string * string))
    (sector : string) :
  frame_wf comb → frame_wf (sub_frame comb sectors sector).
Proof.
  unfold frame_wf, sub_frame. cbn [f_cols f_index]. intros Hwf.
  induction (sector_tickers sectors sector) as [|t labels IH]; [constructor|].
  cbn [pick]. destruct (dict_get t (f_cols comb)) as [c|] eqn:Hc; [|done].
  constructor; [|done]. apply dict_get_elem_of in Hc.
  by apply (proj1 (Forall_forall _ _) Hwf (t, c)).
Qed.

(** ** The Time Index of a run *)

(** C2, amended: for every session date the Time Index built by the
    aggregator is exactly the minutes of the closed interval
    [[market open, market open + 3 hours]]: the window spans 180 minutes,
    the index has 181 entries, entry [k] is [open + k] minutes, the
    window-end timestamp is its last entry, and it is the index of the
    Combined Frame of every run in which some ticker has data. *)
Theorem C2_time_index_closed_interval (d : date) :
  (get_market_open_close d).2 = (get_market_open_close d).1 + 180
  ∧ length (common_index d) = 181%nat
  ∧ (∀ k : nat, (k < 181)%nat →
       common_index d !! k = Some ((get_market_open_close d).1 + Z.of_nat k))
  ∧ (∀ t : datetime,
       t ∈ common_index d
       ↔ (get_market_open_close d).1 <= t <= (get_market_open_close d).2)
  ∧ last (common_index d) = Some (get_market_open_close d).2
  ∧ (∀ (fm : fill_method) (history : string → datetime → datetime → res series)
       (info : string → res (gmap string string)) (tickers : list string)
       (w w' : world) (r1 r2 r3 : ref) (comb : ohlcv_frame),
       calculate_indicators fm history info tickers d w = (Ok (r1, r2, r3), w') →
       heap w' !! r1 = Some (OFrame comb) →
       f_cols comb ≠ [] →
       f_index comb = common_index d).
Proof.
  rewrite market_open_close. cbn [fst snd].
  split; [lia|]. split; [apply common_index_length|].
  split; [apply common_index_lookup|]. split; [apply elem_of_common_index|].
  split.
  - rewrite last_lookup, common_index_length. cbn [Nat.pred].
    rewrite common_index_lookup by lia. f_equal. lia.
  - intros fm history info tickers w w' r1 r2 r3 comb Hrun Hcomb Hcols.
    by destruct (run_combined_frame fm history info tickers d w w' r1 r2 r3 comb
                   Hrun Hcomb Hcols) as (-> & _).
Qed.

Lemma C2_time_index_closed_interval_witness :
  fixture_run = (Ok (0, 1, 6)%nat, fixture_run.2)
  ∧ heap fixture_run.2 !! 0%nat = Some (OFrame fixture_combined)
  ∧ f_cols fixture_combined ≠ []
  ∧ length (common_index 0) = 181%nat
  ∧ last (common_index 0) = Some (get_market_open_close 0).2
  ∧ f_index fixture_combined = common_index 0.
Proof.
  assert (H1 : fixture_run = (Ok (0, 1, 6)%nat, fixture_run.2))
    by (vm_compute; reflexivity).
  assert (H2 : heap fixture_run.2 !! 0%nat = Some (OFrame fixture_combined))
    by (vm_compute; reflexivity).
  assert (H3 : f_cols fixture_combined ≠ []) by (vm_compute; discriminate).
  split; [exact H1|]. split; [exact H2|]. split; [exact H3|].
  destruct (C2_time_index_closed_interval 0) as (_ & Hlen & _ & _ & Hlast & Hrun).
  split; [exact Hlen|]. split; [exact Hlast|].
  exact (Hrun pad fixture_history fixture_info ["A"; "B"; "C"] (mkWorld [] [])
           fixture_run.2 0%nat 1%nat 6%nat fixture_combined H1 H2 H3).
Defined.

(** ** Runs without data *)

Lemma fetched_no_data (history : string → datetime → datetime → res series)
    (info : string → res (gmap string string)) (start_time end_time : datetime)
    (st : list (string * series) * list (string * string)) (ticker : string) :
  (∃ e : exn, history ticker start_time end_time = Raise e)
  ∨ (∃ data : series, history ticker start_time end_time = Ok data
                      ∧ size data = 0%nat) →
  fetched history info start_time end_time st ticker = st.
Proof.
  unfold fetched. intros [[e ->]|(data & -> & Hz)]; [done|].
  by rewrite decide_True.
Qed.

Lemma fetch_all_no_data (history : string → datetime → datetime → res series)
    (info : string → res (gmap string string)) (tickers : list string) (d : date) :
  (∀ t : string, t ∈ tickers →
     (∃ e : exn,
        history t (get_market_open_close d).1 (get_market_open_close d).2 = Raise e)
     ∨ (∃ data : series,
          history t (get_market_open_close d).1 (get_market_open_close d).2 = Ok data
          ∧ size data = 0%nat)) →
  fetch_all history info tickers d = ([], []).
Proof.
  unfold fetch_all. generalize ([] : list (string * series), [] : list (string * string)).
  induction tickers as [|t tickers IH]; intros st H; [done|].
  cbn [foldl]. rewrite fetched_no_data by (apply H; by left).
  apply IH. intros t' Ht'. apply H. by right.
Qed.

Lemma to_csv_run (r : ref) (k : out_kind) (d : date) (w : world) (o : obj) :
  heap w !! r = Some o →
  to_csv r k d w = (Ok tt, mkWorld (heap w) (files w ++ [((k, d), o)])).
Proof. intros H. unfold to_csv. by rewrite H. Qed.

(** C4, as stated, fails: when no ticker yields data (D fails, E is empty)
    the run completes, but the outputs are [pd.DataFrame()]: they have no
    row, not the 180 rows of the session window. *)
Lemma C4_empty_outputs_have_no_rows :
  ¬ (∀ (w' : world) (f : (out_kind * date) * obj),
       main pad (Ok ["D"; "E"]) fixture_history fixture_info 0 (mkWorld [] [])
       = (Ok tt, w') →
       f ∈ files w' →
       (shape f.2).1 = 180%nat).
Proof.
  intros H.
  specialize (H (mkWorld [empty_ohlcv; empty_indicators; empty_sector]
                   [((ohlcv, 0), empty_ohlcv);
                    ((market_indicators, 0), empty_indicators);
                    ((sector_indicators, 0), empty_sector)])
                ((ohlcv, 0), empty_ohlcv)).
  assert (Hrows : (shape (((ohlcv, 0), empty_ohlcv) : (out_kind * date) * obj).2).1
                  = 180%nat).
  { apply H; [vm_compute; reflexivity|left]. }
  discriminate Hrows.
Qed.

(** C4, amended: in every run in which no ticker yields data (every fetch
    fails or returns an empty series) the run completes without raising and
    writes three empty, same-shaped outputs: each has no data column and an
    empty Time Index (no row). *)
Theorem C4_run_without_data (fm : fill_method)
    (history : string → datetime → datetime → res series)
    (info : string → res (gmap string string))
    (universe : list string) (today : date) (w : world) :
  (∀ t : string, t ∈ remove_dollar <$> universe →
     (∃ e : exn,
        history t (get_market_open_close today).1 (get_market_open_close today).2
        = Raise e)
     ∨ (∃ data : series,
          history t (get_market_open_close today).1 (get_market_open_close today).2
          = Ok data
          ∧ size data = 0%nat)) →
  ∃ (w' : world) (o1 o2 o3 : obj),
    main fm (Ok universe) history info today w = (Ok tt, w')
    ∧ files w'
      = files w ++ [((ohlcv, today), o1); ((market_indicators, today), o2);
                    ((sector_indicators, today), o3)]
    ∧ shape o1 = (0%nat, 0%nat)
    ∧ shape o2 = (0%nat, 0%nat)
    ∧ shape o3 = (0%nat, 0%nat).
Proof.
  intros Hno. eexists _, empty_ohlcv, empty_indicators, empty_sector.
  split; [|split; [|done]].
  - unfold main.
    erewrite bind_ok; [|reflexivity].
    erewrite bind_ok;
      [|apply calculate_indicators_empty; by rewrite fetch_all_no_data].
    cbn [fst snd].
    erewrite bind_ok; cycle 1.
    { apply (to_csv_run _ _ _ _ empty_ohlcv). cbn [heap].
      by rewrite (list_lookup_middle (heap w) _ empty_ohlcv). }
    erewrite bind_ok; cycle 1.
    { apply (to_csv_run _ _ _ _ empty_indicators). cbn [heap].
      rewrite (lookup_app_r (heap w)) by lia.
      by replace (S (length (heap w)) - length (heap w))%nat with 1%nat by lia. }
    erewrite bind_ok; cycle 1.
    { apply (to_csv_run _ _ _ _ empty_sector). cbn [heap].
      rewrite (lookup_app_r (heap w)) by lia.
      by replace (S (S (length (heap w))) - length (heap w))%nat with 2%nat by lia. }
    reflexivity.
  - cbn [files]. by rewrite <- !app_assoc.
Qed.

Lemma C4_run_without_data_witness :
  (∀ t : string, t ∈ remove_dollar <$> ["$D"; "E"] →
     (∃ e : exn,
        fixture_history t (get_market_open_close 0).1 (get_market_open_close 0).2
        = Raise e)
     ∨ (∃ data : series,
          fixture_history t (get_market_open_close 0).1 (get_market_open_close 0).2
          = Ok data
          ∧ size data = 0%nat))
  ∧ ∃ (w' : world) (o1 o2 o3 : obj),
      main pad (Ok ["$D"; "E"]) fixture_history fixture_info 0 (mkWorld [] [])
      = (Ok tt, w')
      ∧ files w'
        = files (mkWorld [] [])
          ++ [((ohlcv, 0), o1); ((market_indicators, 0), o2);
              ((sector_indicators, 0), o3)]
      ∧ shape o1 = (0%nat, 0%nat)
      ∧ shape o2 = (0%nat, 0%nat)
      ∧ shape o3 = (0%nat, 0%nat).
Proof.
  assert (Hno : ∀ t : string, t ∈ remove_dollar <$> ["$D"; "E"] →
     (∃ e : exn,
        fixture_history t (get_market_open_close 0).1 (get_market_open_close 0).2
        = Raise e)
     ∨ (∃ data : series,
          fixture_history t (get_market_open_close 0).1 (get_market_open_close 0).2
          = Ok data
          ∧ size data = 0%nat)).
  { intros t Ht. cbn in Ht.
    apply elem_of_cons in Ht as [->|Ht].
    - left. by eexists.
    - apply list_elem_of_singleton in Ht as ->. right. by exists ∅. }
  split; [exact Hno|].
  exact (C4_run_without_data pad fixture_history fixture_info ["$D"; "E"] 0
           (mkWorld [] []) Hno).
Defined.

(** ** Sector lookups *)

Lemma sector_of_unknown (info : string → res (gmap string string)) (ticker : string) :
  (∃ e : exn, info ticker = Raise e)
  ∨ (∃ stock_info : gmap string string,
       info ticker = Ok stock_info ∧ stock_info !! "sector" = None) →
  sector_of info ticker = "Unknown".
Proof.
  unfold sector_of. intros [[e ->]|(stock_info & -> & ->)]; reflexivity.
Qed.

Lemma fetched_sectors_recorded
    (history : string → datetime → datetime → res series)
    (info : string → res (gmap string string)) (start_time end_time : datetime)
    (st : list (string * series) * list (string * string)) (ticker : string) :
  sectors_recorded info st.2 →
  sectors_recorded info (fetched history info start_time end_time st ticker).2.
Proof.
  intros Hst. unfold fetched.
  destruct (history ticker start_time end_time) as [data|e]; [|done].
  destruct (decide (size data = 0%nat)); [done|]. cbn [snd].
  intros t Ht. destruct (decide (ticker = t)) as [->|Hne].
  - apply dict_get_set_eq.
  - rewrite dict_get_set_ne by done. apply Hst.
    apply dict_keys_set_elem in Ht as [->|Ht]; done.
Qed.

Lemma fetch_all_sectors_recorded
    (history : string → datetime → datetime → res series)
    (info : string → res (gmap string string)) (tickers : list string) (d : date) :
  sectors_recorded info (fetch_all history info tickers d).2.
Proof.
  unfold fetch_all.
  assert (H0 : sectors_recorded info
                 ([] : list (string * series), [] : list (string * string)).2)
    by (intros t Ht; by apply elem_of_nil in Ht).
  revert H0.
  generalize ([] : list (string * series), [] : list (string * string)).
  induction tickers as [|t tickers IH]; intros st Hst; [done|].
  cbn [foldl]. apply IH. by apply fetched_sectors_recorded.
Qed.

Lemma calculate_indicators_returns (fm : fill_method)
    (history : string → datetime → datetime → res series)
    (info : string → res (gmap string string))
    (tickers : list string) (d : date) (w : world) :
  ∃ (out : ref * ref * ref) (w' : world),
    calculate_indicators fm history info tickers d w = (Ok out, w').
Proof.
  destruct (decide ((fetch_all history info tickers d).1 = [])) as [He|Hne].
  - eexists _, _. by apply calculate_indicators_empty.
  - destruct (calculate_indicators_nonempty fm history info tickers d w Hne)
      as (r3 & w' & Hrun & _).
    by eexists _, _.
Qed.

(** C9: when the sector lookup of a ticker raises, or returns no sector,
    [get_sector] returns "Unknown" instead of raising; the fetch loop then
    records "Unknown" for the ticker if it has data and goes on with the
    remaining tickers, and the run returns normally. *)
Theorem C9_sector_lookup_failure_is_unknown (fm : fill_method)
    (history : string → datetime → datetime → res series)
    (info : string → res (gmap string string)) (ticker : string) :
  (∃ e : exn, info ticker = Raise e)
  ∨ (∃ stock_info : gmap string string,
       info ticker = Ok stock_info ∧ stock_info !! "sector" = None) →
  (∀ w : world, get_sector info ticker w = (Ok "Unknown", w))
  ∧ (∀ (tickers : list string) (d : date) (w : world),
       ∃ st : list (string * series) * list (string * string),
         for_each tickers
           (fetch history info (get_market_open_close d).1 (get_market_open_close d).2)
           ([], []) w
         = (Ok st, w)
         ∧ dict_keys st.1 = dict_keys st.2
         ∧ (ticker ∈ dict_keys st.1 → dict_get ticker st.2 = Some "Unknown"))
  ∧ (∀ (tickers : list string) (d : date) (w : world),
       ∃ (out : ref * ref * ref) (w' : world),
         calculate_indicators fm history info tickers d w = (Ok out, w')).
Proof.
  intros Hfail. pose proof (sector_of_unknown info ticker Hfail) as Hunk.
  split; [|split].
  - intros w. by rewrite get_sector_run, Hunk.
  - intros tickers d w. exists (fetch_all history info tickers d).
    split; [apply fetch_loop_run|].
    destruct (fetch_all_ok history info tickers d) as [Hk _].
    split; [exact Hk|]. intros Hin. rewrite <- Hunk.
    apply fetch_all_sectors_recorded. by rewrite <- Hk.
  - apply calculate_indicators_returns.
Qed.

Lemma C9_sector_lookup_failure_is_unknown_witness :
  ((∃ e : exn, fixture_info "B" = Raise e)
   ∨ (∃ stock_info : gmap string string,
        fixture_info "B" = Ok stock_info ∧ stock_info !! "sector" = None))
  ∧ ((∃ e : exn, fixture_info "C" = Raise e)
     ∨ (∃ stock_info : gmap string string,
          fixture_info "C" = Ok stock_info ∧ stock_info !! "sector" = None))
  ∧ (∀ w : world, get_sector fixture_info "B" w = (Ok "Unknown", w))
  ∧ (∀ w : world, get_sector fixture_info "C" w = (Ok "Unknown", w)).
Proof.
  assert (HB : (∃ e : exn, fixture_info "B" = Raise e)
               ∨ (∃ stock_info : gmap string string,
                    fixture_info "B" = Ok stock_info
                    ∧ stock_info !! "sector" = None))
    by (right; by exists ∅).
  assert (HC : (∃ e : exn, fixture_info "C" = Raise e)
               ∨ (∃ stock_info : gmap string string,
                    fixture_info "C" = Ok stock_info
                    ∧ stock_info !! "sector" = None))
    by (left; by eexists).
  split; [exact HB|]. split; [exact HC|]. split.
  - exact (proj1 (C9_sector_lookup_failure_is_unknown pad fixture_history
                    fixture_info "B" HB)).
  - exact (proj1 (C9_sector_lookup_failure_is_unknown pad fixture_history
                    fixture_info "C" HC)).
Defined.

(** ** Frame effects *)

Lemma elem_of_dict_set {V} (k k' : string) (v v' : V) (d : list (string * V)) :
  (k', v') ∈ dict_set k v d → (k', v') = (k, v) ∨ (k', v') ∈ d.
Proof.
  induction d as [|[k0 v0] d IH]; cbn.
  - intros H%list_elem_of_singleton. by left.
  - destruct (decide (k0 = k)) as [->|Hne]; rewrite !elem_of_cons.
    + intros [H|H]; [by left|right; by right].
    + intros [H|H]; [right; by left|].
      destruct (IH H) as [?|?]; [by left|right; by right].
Qed.

Lemma fetch_all_from_history
    (history : string → datetime → datetime → res series)
    (info : string → res (gmap string string)) (tickers : list string) (d : date)
    (t : string) (s : series) :
  (t, s) ∈ (fetch_all history info tickers d).1 →
  history t (get_market_open_close d).1 (get_market_open_close d).2 = Ok s.
Proof.
  unfold fetch_all.
  assert (H0 : ∀ t s, (t, s) ∈ ([] : list (string * series), [] : list (string * string)).1 →
                 history t (get_market_open_close d).1 (get_market_open_close d).2 = Ok s)
    by (intros t' s' H; by apply elem_of_nil in H).
  revert H0.
  generalize ([] : list (string * series), [] : list (string * string)).
  revert t s. induction tickers as [|t0 tickers IH]; intros t s st Hst; [by apply Hst|].
  cbn [foldl]. apply IH. intros t' s'. unfold fetched.
  destruct (history t0 _ _) as [data|e] eqn:Hh; [|by apply Hst].
  destruct (decide (size data = 0%nat)); [by apply Hst|]. cbn [fst].
  intros [[= -> ->]|Hin]%elem_of_dict_set; [done|by apply Hst].
Qed.



(** ** Aggregation over sectors *)









Lemma filter_all {A} (P : A → Prop) `{∀ x, Decision (P x)} (l : list A) :
  (∀ x : A, x ∈ l → P x) → filter P l = l.
Proof.
  induction l as [|x l IH]; intros HP; [done|].
  rewrite filter_cons, decide_True by (apply HP; left).
  f_equal. apply IH. intros y Hy. apply HP. by right.
Qed.












(** * Further properties of the code *)

(** ** [get_spx_tickers] *)

Lemma remove_dollar_chars (s : string) :
  String.list_ascii_of_string (remove_dollar s)
  = filter (fun c : ascii => c ≠ "$"%char) (String.list_ascii_of_string s).
Proof.
  induction s as [|c s IH]; [done|]. cbn [remove_dollar String.list_ascii_of_string].
  rewrite filter_cons. destruct (decide (c = "$"%char)) as [->|Hne].
  - by rewrite decide_False by (by intros H).
  - rewrite decide_True by done. cbn. by rewrite IH.
Qed.

Lemma remove_dollar_id (s : string) :
  "$"%char ∉ String.list_ascii_of_string s → remove_dollar s = s.
Proof.
  induction s as [|c s IH]; [done|]. cbn. rewrite not_elem_of_cons. intros [Hc Hs].
  rewrite decide_False by done. by rewrite IH.
Qed.

(** When the universe resolves, [get_spx_tickers] returns one ticker per
    entry, in the same order, each with every '$' removed and all other
    characters kept in place; the store is not touched. *)
Theorem get_spx_tickers_strips_dollar (universe : list string) (w : world) :
  ∃ tickers : list string,
    get_spx_tickers (Ok universe) w = (Ok tickers, w)
    ∧ length tickers = length universe
    ∧ ∀ (i : nat) (t : string),
        universe !! i = Some t →
        ∃ t' : string,
          tickers !! i = Some t'
          ∧ String.list_ascii_of_string t'
            = filter (fun c : ascii => c ≠ "$"%char) (String.list_ascii_of_string t)
          ∧ ("$"%char ∉ String.list_ascii_of_string t')
          ∧ ("$"%char ∉ String.list_ascii_of_string t → t' = t).
Proof.
  exists (remove_dollar <$> universe). split; [done|].
  split; [by rewrite length_fmap|]. intros i t Hi. exists (remove_dollar t).
  split; [by rewrite list_lookup_fmap, Hi|].
  split; [apply remove_dollar_chars|]. split; [|apply remove_dollar_id].
  rewrite remove_dollar_chars. intros Hin.
  apply list_elem_of_filter in Hin as [Hne _]. done.
Qed.

(** ** The outputs of a run *)

(** What [calculate_indicators] returns, in both branches. *)
Lemma run_outputs (fm : fill_method)
    (history : string → datetime → datetime → res series)
    (info : string → res (gmap string string))
    (tickers : list string) (d : date) (w : world) :
  ∃ (r1 r2 r3 : ref) (w' : world) (o1 o2 o3 : obj),
    calculate_indicators fm history info tickers d w = (Ok (r1, r2, r3), w')
    ∧ heap w' !! r1 = Some o1
    ∧ heap w' !! r2 = Some o2
    ∧ heap w' !! r3 = Some o3
    ∧ heap w `prefix_of` heap w'
    ∧ files w' = files w
    ∧ (((fetch_all history info tickers d).1 = []
        ∧ o1 = empty_ohlcv ∧ o2 = empty_indicators ∧ o3 = empty_sector)
       ∨ ((fetch_all history info tickers d).1 ≠ []
          ∧ o1 = OFrame (combined_frame d (fetch_all history info tickers d).1)
          ∧ o2 = IFrame (indicator_table fm
                           (combined_frame d (fetch_all history info tickers d).1))
          ∧ o3 = SFrame (mkSec (common_index d)
                   (concat_tables
                      ((fun s : string =>
                          (s, sector_table fm
                                (combined_frame d (fetch_all history info tickers d).1)
                                (fetch_all history info tickers d).2 s))
                         <$> remove_dups
                               (dict_values (fetch_all history info tickers d).2)))))).
Proof.
  destruct (decide ((fetch_all history info tickers d).1 = [])) as [He|Hne].
  - eexists _, _, _, _, empty_ohlcv, empty_indicators, empty_sector.
    split; [by apply calculate_indicators_empty|]. cbn [heap files].
    split; [by rewrite (list_lookup_middle (heap w) _ empty_ohlcv)|].
    split.
    { rewrite (lookup_app_r (heap w)) by lia.
      by replace (S (length (heap w)) - length (heap w))%nat with 1%nat by lia. }
    split.
    { rewrite (lookup_app_r (heap w)) by lia.
      by replace (S (S (length (heap w))) - length (heap w))%nat with 2%nat by lia. }
    split; [by apply prefix_app_r|]. split; [done|]. by left.
  - destruct (calculate_indicators_nonempty fm history info tickers d w Hne)
      as (r3 & w' & Hrun & H1 & H2 & H3 & Hpre & Hfiles).
    eexists _, _, r3, w', _, _, _. split; [exact Hrun|].
    split; [exact H1|]. split; [exact H2|]. split; [exact H3|].
    split; [done|]. split; [done|]. right. done.
Qed.



(** ** Which tickers survive the fetch loop *)

Lemma fetch_loop_keys
    (history : string → datetime → datetime → res series)
    (info : string → res (gmap string string)) (start_time end_time : datetime)
    (tickers : list string) (st : list (string * series) * list (string * string))
    (t : string) :
  t ∈ dict_keys (foldl (fetched history info start_time end_time) st tickers).1
  ↔ t ∈ dict_keys st.1
    ∨ (t ∈ tickers
       ∧ ∃ data : series,
           history t start_time end_time = Ok data ∧ size data ≠ 0%nat).
Proof.
  revert st. induction tickers as [|t0 tickers IH]; intros st.
  - cbn. split; [by left|]. intros [?|[Hin _]]; [done|by apply elem_of_nil in Hin].
  - cbn [foldl]. rewrite IH, elem_of_cons. unfold fetched.
    destruct (history t0 start_time end_time) as [data|e] eqn:Hh.
    + destruct (decide (size data = 0%nat)) as [Hz|Hnz].
      * split; [tauto|].
        intros [?|[[->|?] (data' & Hd & Hs)]];
          [by left| |right; split; [done|by exists data']].
        rewrite Hh in Hd. injection Hd as <-. done.
      * cbn [fst]. rewrite dict_keys_set_elem. split.
        -- intros [[->|?]|[? ?]]; [|by left|right; split; [by right|done]].
           right. split; [by left|by exists data].
        -- intros [?|[[->|?] ?]];
             [left; by right|left; by left|right; by split].
    + split; [tauto|].
      intros [?|[[->|?] (data' & Hd & ?)]];
        [by left| |right; split; [done|by exists data']].
      by rewrite Hh in Hd.
Qed.

Lemma fetch_all_keys
    (history : string → datetime → datetime → res series)
    (info : string → res (gmap string string)) (tickers : list string) (d : date)
    (t : string) :
  t ∈ dict_keys (fetch_all history info tickers d).1
  ↔ t ∈ tickers
    ∧ ∃ data : series,
        history t (get_market_open_close d).1 (get_market_open_close d).2 = Ok data
        ∧ size data ≠ 0%nat.
Proof.
  unfold fetch_all. rewrite fetch_loop_keys. cbn [fst dict_keys fmap list_fmap].
  split; [intros [Hin|?]; [by apply elem_of_nil in Hin|done]|by right].
Qed.

Lemma combined_frame_keys (d : date) (all_data : list (string * series)) :
  dict_keys (f_cols (combined_frame d all_data)) = dict_keys all_data.
Proof.
  unfold combined_frame, dict_keys. cbn [f_cols]. by rewrite <- list_fmap_compose.
Qed.

(** The OHLCV frame that a run returns, read back from the store. *)
Lemma run_ohlcv_frame (fm : fill_method)
    (history : string → datetime → datetime → res series)
    (info : string → res (gmap string string))
    (tickers : list string) (d : date) (w w' : world) (r1 r2 r3 : ref)
    (comb : ohlcv_frame) :
  calculate_indicators fm history info tickers d w = (Ok (r1, r2, r3), w') →
  heap w' !! r1 = Some (OFrame comb) →
  f_cols comb
  = (fun p : string * series => (p.1, reindex p.2 (common_index d)))
      <$> (fetch_all history info tickers d).1.
Proof.
  intros Hrun Hcomb.
  destruct (run_outputs fm history info tickers d w)
    as (r1' & r2' & r3' & w'' & o1 & o2 & o3 & Hrun' & H1 & _ & _ & _ & _ & Hcase).
  rewrite Hrun' in Hrun. injection Hrun as <- <- <- <-.
  rewrite H1 in Hcomb.
  destruct Hcase as [(He & -> & _)|(_ & -> & _)]; injection Hcomb as <-.
  - by rewrite He.
  - done.
Qed.

(** The tickers of the OHLCV frame that a run returns are exactly the
    requested tickers whose fetch succeeded with at least one bar, each of
    them once: a ticker whose fetch raises or returns no bar is dropped, a
    ticker listed twice appears once. *)
Theorem run_keeps_tickers_with_data (fm : fill_method)
    (history : string → datetime → datetime → res series)
    (info : string → res (gmap string string))
    (tickers : list string) (d : date) (w w' : world) (r1 r2 r3 : ref)
    (comb : ohlcv_frame) :
  calculate_indicators fm history info tickers d w = (Ok (r1, r2, r3), w') →
  heap w' !! r1 = Some (OFrame comb) →
  NoDup (dict_keys (f_cols comb))
  ∧ ∀ t : string,
      t ∈ dict_keys (f_cols comb)
      ↔ t ∈ tickers
        ∧ ∃ data : series,
            history t (get_market_open_close d).1 (get_market_open_close d).2
            = Ok data
            ∧ size data ≠ 0%nat.
Proof.
  intros Hrun Hcomb.
  assert (Hk : dict_keys (f_cols comb)
               = dict_keys (fetch_all history info tickers d).1).
  { rewrite (run_ohlcv_frame fm history info tickers d w w' r1 r2 r3 comb Hrun Hcomb).
    apply (combined_frame_keys d). }
  rewrite Hk. split.
  - by destruct (fetch_all_ok history info tickers d).
  - intros t. apply fetch_all_keys.
Qed.

Lemma run_keeps_tickers_with_data_witness :
  listed_twice_run = (Ok (0, 1, 6)%nat, listed_twice_run.2)
  ∧ heap listed_twice_run.2 !! 0%nat = Some (OFrame listed_twice_combined)
  ∧ dict_keys (f_cols listed_twice_combined) = ["A"; "B"]
  ∧ NoDup (dict_keys (f_cols listed_twice_combined))
  ∧ ∀ t : string,
      t ∈ dict_keys (f_cols listed_twice_combined)
      ↔ t ∈ ["A"; "D"; "B"; "E"; "A"]
        ∧ ∃ data : series,
            fixture_history t (get_market_open_close 0).1 (get_market_open_close 0).2
            = Ok data
            ∧ size data ≠ 0%nat.
Proof.
  assert (H1 : listed_twice_run = (Ok (0, 1, 6)%nat, listed_twice_run.2))
    by (vm_compute; reflexivity).
  assert (H2 : heap listed_twice_run.2 !! 0%nat = Some (OFrame listed_twice_combined))
    by (vm_compute; reflexivity).
  split; [exact H1|]. split; [exact H2|]. split; [vm_compute; reflexivity|].
  exact (run_keeps_tickers_with_data pad fixture_history fixture_info
           ["A"; "D"; "B"; "E"; "A"] 0 (mkWorld [] []) listed_twice_run.2
           0%nat 1%nat 6%nat listed_twice_combined H1 H2).
Defined.

(** ** Alignment of the fetched bars *)

(** In the OHLCV frame that a run returns, the column of a ticker is the
    series its fetch returned, read minute by minute over the session
    window: it has one cell per Time Index minute, the cell of a minute with
    a bar is that bar unchanged, the cell of a minute without one is
    missing, and a bar stamped outside the window appears nowhere. *)
Theorem run_aligns_bars_on_window (fm : fill_method)
    (history : string → datetime → datetime → res series)
    (info : string → res (gmap string string))
    (tickers : list string) (d : date) (w w' : world) (r1 r2 r3 : ref)
    (comb : ohlcv_frame) (t : string) (col : aligned) :
  calculate_indicators fm history info tickers d w = (Ok (r1, r2, r3), w') →
  heap w' !! r1 = Some (OFrame comb) →
  (t, col) ∈ f_cols comb →
  ∃ s : series,
    history t (get_market_open_close d).1 (get_market_open_close d).2 = Ok s
    ∧ length col = 181%nat
    ∧ (∀ k : nat, (k < 181)%nat →
         col !! k = Some (s !! ((get_market_open_close d).1 + Z.of_nat k)))
    ∧ (∀ b : Bar,
         Some b ∈ col
         ↔ ∃ ts : datetime,
             (get_market_open_close d).1 <= ts <= (get_market_open_close d).2
             ∧ s !! ts = Some b).
Proof.
  intros Hrun Hcomb Hin.
  rewrite (run_ohlcv_frame fm history info tickers d w w' r1 r2 r3 comb Hrun Hcomb)
    in Hin.
  apply list_elem_of_fmap in Hin as ([t' s] & [= -> ->] & Hin). cbn [fst snd].
  exists s. split; [by eapply fetch_all_from_history|].
  split; [by rewrite reindex_length, common_index_length|].
  rewrite market_open_close. cbn [fst snd]. split.
  - intros k Hk. apply reindex_lookup. by apply common_index_lookup.
  - intros b. unfold reindex. rewrite list_elem_of_fmap. split.
    + intros (ts & Hb & Hts). exists ts. split; [|done].
      by apply elem_of_common_index.
    + intros (ts & Hts & Hb). exists ts. split; [done|].
      by apply elem_of_common_index.
Qed.

Lemma run_aligns_bars_on_window_witness :
  fixture_run = (Ok (0, 1, 6)%nat, fixture_run.2)
  ∧ heap fixture_run.2 !! 0%nat = Some (OFrame fixture_combined)
  ∧ ("B", reindex gap_series (common_index 0)) ∈ f_cols fixture_combined
  ∧ ∃ s : series,
      fixture_history "B" (get_market_open_close 0).1 (get_market_open_close 0).2
      = Ok s
      ∧ length (reindex gap_series (common_index 0)) = 181%nat
      ∧ (∀ k : nat, (k < 181)%nat →
           reindex gap_series (common_index 0) !! k
           = Some (s !! ((get_market_open_close 0).1 + Z.of_nat k)))
      ∧ (∀ b : Bar,
           Some b ∈ reindex gap_series (common_index 0)
           ↔ ∃ ts : datetime,
               (get_market_open_close 0).1 <= ts <= (get_market_open_close 0).2
               ∧ s !! ts = Some b).
Proof.
  assert (H1 : fixture_run = (Ok (0, 1, 6)%nat, fixture_run.2))
    by (vm_compute; reflexivity).
  assert (H2 : heap fixture_run.2 !! 0%nat = Some (OFrame fixture_combined))
    by (vm_compute; reflexivity).
  assert (H3 : ("B", reindex gap_series (common_index 0)) ∈ f_cols fixture_combined).
  { apply (list_elem_of_lookup_2 _ 1%nat). vm_compute. reflexivity. }
  split; [exact H1|]. split; [exact H2|]. split; [exact H3|].
  exact (run_aligns_bars_on_window pad fixture_history fixture_info ["A"; "B"; "C"] 0
           (mkWorld [] []) fixture_run.2 0%nat 1%nat 6%nat fixture_combined
           "B" (reindex gap_series (common_index 0)) H1 H2 H3).
Defined.

(** ** The layout of the per-sector table *)

Lemma dict_get_of_elem {V} (k : string) (v : V) (d : list (string * V)) :
  NoDup (dict_keys d) → (k, v) ∈ d → dict_get k d = Some v.
Proof.
  unfold dict_keys. induction d as [|[k' v'] d IH]; intros Hnd Hin.
  - by apply elem_of_nil in Hin.
  - cbn [fmap list_fmap fst] in Hnd. apply NoDup_cons in Hnd as [Hnin Hnd].
    apply elem_of_cons in Hin as [[= -> ->]|Hin]; cbn.
    + by rewrite decide_True.
    + rewrite decide_False; [by apply IH|]. intros ->. apply Hnin.
      apply list_elem_of_fmap. by exists (k, v).
Qed.

Lemma recorded_sectors
    (history : string → datetime → datetime → res series)
    (info : string → res (gmap string string)) (tickers : list string) (d : date)
    (s : string) :
  s ∈ dict_values (fetch_all history info tickers d).2
  ↔ ∃ t : string,
      t ∈ dict_keys (fetch_all history info tickers d).1 ∧ sector_of info t = s.
Proof.
  destruct (fetch_all_ok history info tickers d) as [Hk Hnd].
  pose proof (fetch_all_sectors_recorded history info tickers d) as Hrec.
  rewrite Hk in *. unfold dict_values. rewrite list_elem_of_fmap. split.
  - intros ([t s'] & -> & Hin). exists t. cbn [snd].
    assert (Ht : t ∈ dict_keys (fetch_all history info tickers d).2).
    { apply list_elem_of_fmap. by exists (t, s'). }
    split; [done|]. apply (dict_get_of_elem _ _ _ Hnd) in Hin.
    rewrite (Hrec t Ht) in Hin. by injection Hin.
  - intros (t & Ht & <-). exists (t, sector_of info t). split; [done|].
    apply dict_get_elem_of. by apply Hrec.
Qed.

Lemma from_product_length (a b : list string) :
  length (from_product a b) = (length a * length b)%nat.
Proof.
  unfold from_product. induction a as [|x a IH]; [done|].
  cbn. rewrite length_app, length_fmap. cbn in IH. by rewrite IH.
Qed.

Lemma remove_dups_length_le (l : list string) :
  (length (remove_dups l) <= length l)%nat.
Proof.
  induction l as [|x l IH]; [done|]. cbn [remove_dups length].
  destruct (decide_rel elem_of x l); cbn [length]; lia.
Qed.

(** In a run in which some ticker has data, the per-sector table has one
    group of the eight indicator columns per distinct sector, labelled
    (sector, indicator) and grouped by sector; the sectors are exactly the
    values that [get_sector] returns for the tickers of the OHLCV frame,
    each of them once. *)
Theorem run_sector_table_layout (fm : fill_method)
    (history : string → datetime → datetime → res series)
    (info : string → res (gmap string string))
    (tickers : list string) (d : date) (w w' : world) (r1 r2 r3 : ref)
    (comb : ohlcv_frame) (sec : sector_frame) :
  calculate_indicators fm history info tickers d w = (Ok (r1, r2, r3), w') →
  heap w' !! r1 = Some (OFrame comb) →
  heap w' !! r3 = Some (SFrame sec) →
  f_cols comb ≠ [] →
  ∃ groups : list string,
    NoDup groups
    ∧ fst <$> s_cols sec = from_product groups indicator_names
    ∧ (∀ s : string,
         s ∈ groups
         ↔ ∃ t : string,
             t ∈ dict_keys (f_cols comb)
             ∧ ∀ w0 : world, get_sector info t w0 = (Ok s, w0))
    ∧ (1 <= length groups <= length (f_cols comb))%nat.
Proof.
  intros Hrun Hcomb Hsec Hcols.
  destruct (run_outputs fm history info tickers d w)
    as (r1' & r2' & r3' & w'' & o1 & o2 & o3 & Hrun' & H1 & _ & H3 & _ & _ & Hcase).
  rewrite Hrun' in Hrun. injection Hrun as <- <- <- <-.
  rewrite H1 in Hcomb. rewrite H3 in Hsec.
  destruct Hcase as [(_ & -> & _)|(Hne & -> & _ & ->)].
  { injection Hcomb as <-. done. }
  injection Hcomb as <-. injection Hsec as <-. cbn [s_cols].
  set (all_data := (fetch_all history info tickers d).1) in *.
  set (sectors := (fetch_all history info tickers d).2) in *.
  exists (remove_dups (dict_values sectors)).
  split; [apply NoDup_remove_dups|].
  split; [apply concat_tables_labels|].
  destruct (fetch_all_ok history info tickers d) as [Hk _]. fold all_data sectors in Hk.
  split.
  - intros s. rewrite elem_of_remove_dups, combined_frame_keys.
    unfold sectors. rewrite recorded_sectors. fold all_data. split.
    + intros (t & Ht & <-). exists t. split; [done|].
      intros w0. apply get_sector_run.
    + intros (t & Ht & Hs). exists t. split; [done|].
      specialize (Hs w). rewrite get_sector_run in Hs. by injection Hs.
  - split.
    + destruct (remove_dups (dict_values sectors)) as [|s0 l] eqn:E; [|cbn; lia].
      exfalso. destruct all_data as [|p rest]; [done|].
      destruct sectors as [|[t s] sectors']; [done|].
      assert (Hin : s ∈ remove_dups (dict_values ((t, s) :: sectors')))
        by (apply elem_of_remove_dups; left).
      rewrite E in Hin. by apply elem_of_nil in Hin.
    + etrans; [apply remove_dups_length_le|].
      unfold dict_values, combined_frame. cbn [f_cols]. rewrite !length_fmap.
      apply (f_equal length) in Hk. unfold dict_keys in Hk.
      rewrite !length_fmap in Hk. lia.
Qed.

Lemma run_sector_table_layout_witness :
  fixture_run = (Ok (0, 1, 6)%nat, fixture_run.2)
  ∧ heap fixture_run.2 !! 0%nat = Some (OFrame fixture_combined)
  ∧ heap fixture_run.2 !! 6%nat = Some (SFrame fixture_sector_frame)
  ∧ f_cols fixture_combined ≠ []
  ∧ ∃ groups : list string,
      NoDup groups
      ∧ fst <$> s_cols fixture_sector_frame = from_product groups indicator_names
      ∧ (∀ s : string,
           s ∈ groups
           ↔ ∃ t : string,
               t ∈ dict_keys (f_cols fixture_combined)
               ∧ ∀ w0 : world, get_sector fixture_info t w0 = (Ok s, w0))
      ∧ (1 <= length groups <= length (f_cols fixture_combined))%nat.
Proof.
  assert (H1 : fixture_run = (Ok (0, 1, 6)%nat, fixture_run.2))
    by (vm_compute; reflexivity).
  assert (H2 : heap fixture_run.2 !! 0%nat = Some (OFrame fixture_combined))
    by (vm_compute; reflexivity).
  assert (H3 : heap fixture_run.2 !! 6%nat = Some (SFrame fixture_sector_frame))
    by (vm_compute; reflexivity).
  assert (H4 : f_cols fixture_combined ≠ []) by (vm_compute; discriminate).
  split; [exact H1|]. split; [exact H2|]. split; [exact H3|]. split; [exact H4|].
  exact (run_sector_table_layout pad fixture_history fixture_info ["A"; "B"; "C"] 0
           (mkWorld [] []) fixture_run.2 0%nat 1%nat 6%nat fixture_combined
           fixture_sector_frame H1 H2 H3 H4).
Defined.

(** ** The shapes of the three outputs *)

(** The three tables that a run returns are empty, with no row and no
    column, exactly when no requested ticker has data.  Otherwise they all
    have the 181 rows of the Time Index; the OHLCV frame has five columns
    per ticker, the market table the eight indicator columns and the sector
    table eight columns per sector, for at least one and at most as many
    sectors as tickers. *)
Theorem run_output_shapes (fm : fill_method)
    (history : string → datetime → datetime → res series)
    (info : string → res (gmap string string))
    (tickers : list string) (d : date) (w w' : world) (r1 r2 r3 : ref)
    (o1 o2 o3 : obj) :
  calculate_indicators fm history info tickers d w = (Ok (r1, r2, r3), w') →
  heap w' !! r1 = Some o1 →
  heap w' !! r2 = Some o2 →
  heap w' !! r3 = Some o3 →
  ((∀ t : string, t ∈ tickers →
      ¬ ∃ data : series,
          history t (get_market_open_close d).1 (get_market_open_close d).2 = Ok data
          ∧ size data ≠ 0%nat)
   ∧ shape o1 = (0%nat, 0%nat) ∧ shape o2 = (0%nat, 0%nat)
   ∧ shape o3 = (0%nat, 0%nat))
  ∨ ((∃ t : string,
        t ∈ tickers
        ∧ ∃ data : series,
            history t (get_market_open_close d).1 (get_market_open_close d).2
            = Ok data
            ∧ size data ≠ 0%nat)
     ∧ ∃ n m : nat,
         (1 <= m <= n)%nat
         ∧ shape o1 = (181%nat, (5 * n)%nat)
         ∧ shape o2 = (181%nat, 8%nat)
         ∧ shape o3 = (181%nat, (8 * m)%nat)).
Proof.
  intros Hrun Ho1 Ho2 Ho3.
  destruct (run_outputs fm history info tickers d w)
    as (r1' & r2' & r3' & w'' & o1' & o2' & o3' & Hrun' & H1 & H2 & H3 & _ & _ & Hcase).
  rewrite Hrun' in Hrun. injection Hrun as <- <- <- <-.
  rewrite H1 in Ho1. rewrite H2 in Ho2. rewrite H3 in Ho3.
  injection Ho1 as <-. injection Ho2 as <-. injection Ho3 as <-.
  destruct Hcase as [(He & -> & -> & ->)|(Hne & -> & -> & ->)].
  - left. split; [|done]. intros t Ht Hdata.
    assert (Hin : t ∈ dict_keys (fetch_all history info tickers d).1)
      by (by apply fetch_all_keys).
    rewrite He in Hin. by apply elem_of_nil in Hin.
  - right.
    set (all_data := (fetch_all history info tickers d).1) in *.
    set (sectors := (fetch_all history info tickers d).2) in *.
    split.
    + destruct all_data as [|[t s] rest] eqn:E; [done|]. exists t.
      apply (fetch_all_keys history info). fold all_data. rewrite E. by left.
    + exists (length all_data), (length (remove_dups (dict_values sectors))).
      destruct (fetch_all_ok history info tickers d) as [Hk _].
      fold all_data sectors in Hk.
      apply (f_equal length) in Hk. unfold dict_keys in Hk.
      rewrite !length_fmap in Hk.
      split; [split|].
      * destruct (remove_dups (dict_values sectors)) as [|s0 l] eqn:E; [|cbn; lia].
        exfalso. destruct all_data as [|p rest]; [done|].
        destruct sectors as [|[t s] sectors']; [done|].
        assert (Hin : s ∈ remove_dups (dict_values ((t, s) :: sectors')))
          by (apply elem_of_remove_dups; left).
        rewrite E in Hin. by apply elem_of_nil in Hin.
      * etrans; [apply remove_dups_length_le|].
        unfold dict_values. rewrite length_fmap. lia.
      * split; [|split].
        -- unfold shape, combined_frame. cbn [f_index f_cols].
           rewrite common_index_length, length_fmap. reflexivity.
        -- unfold shape, indicator_table, combined_frame. cbn [i_index i_cols f_index].
           rewrite common_index_length. reflexivity.
        -- unfold shape. cbn [s_index s_cols]. rewrite common_index_length. f_equal.
           rewrite <- (length_fmap fst), concat_tables_labels, from_product_length.
           cbn [indicator_names length]. lia.
Qed.

Lemma run_output_shapes_witness :
  fixture_run = (Ok (0, 1, 6)%nat, fixture_run.2)
  ∧ heap fixture_run.2 !! 0%nat = Some (OFrame fixture_combined)
  ∧ heap fixture_run.2 !! 1%nat = Some (IFrame fixture_table)
  ∧ heap fixture_run.2 !! 6%nat = Some (SFrame fixture_sector_frame)
  ∧ (((∀ t : string, t ∈ ["A"; "B"; "C"] →
         ¬ ∃ data : series,
             fixture_history t (get_market_open_close 0).1
               (get_market_open_close 0).2 = Ok data
             ∧ size data ≠ 0%nat)
      ∧ shape (OFrame fixture_combined) = (0%nat, 0%nat)
      ∧ shape (IFrame fixture_table) = (0%nat, 0%nat)
      ∧ shape (SFrame fixture_sector_frame) = (0%nat, 0%nat))
     ∨ ((∃ t : string,
           t ∈ ["A"; "B"; "C"]
           ∧ ∃ data : series,
               fixture_history t (get_market_open_close 0).1
                 (get_market_open_close 0).2 = Ok data
               ∧ size data ≠ 0%nat)
        ∧ ∃ n m : nat,
            (1 <= m <= n)%nat
            ∧ shape (OFrame fixture_combined) = (181%nat, (5 * n)%nat)
            ∧ shape (IFrame fixture_table) = (181%nat, 8%nat)
            ∧ shape (SFrame fixture_sector_frame) = (181%nat, (8 * m)%nat))).
Proof.
  assert (H1 : fixture_run = (Ok (0, 1, 6)%nat, fixture_run.2))
    by (vm_compute; reflexivity).
  assert (H2 : heap fixture_run.2 !! 0%nat = Some (OFrame fixture_combined))
    by (vm_compute; reflexivity).
  assert (H3 : heap fixture_run.2 !! 1%nat = Some (IFrame fixture_table))
    by (vm_compute; reflexivity).
  assert (H4 : heap fixture_run.2 !! 6%nat = Some (SFrame fixture_sector_frame))
    by (vm_compute; reflexivity).
  split; [exact H1|]. split; [exact H2|]. split; [exact H3|]. split; [exact H4|].
  exact (run_output_shapes pad fixture_history fixture_info ["A"; "B"; "C"] 0
           (mkWorld [] []) fixture_run.2 0%nat 1%nat 6%nat
           (OFrame fixture_combined) (IFrame fixture_table)
           (SFrame fixture_sector_frame) H1 H2 H3 H4).
Defined.

(** ** The indicator table, column by column *)

Lemma zip_with_fmap_same {A B C D} (f : B → C → D) (g : A → B) (h : A → C)
    (l : list A) :
  zip_with f (g <$> l) (h <$> l) = (fun x => f (g x) (h x)) <$> l.
Proof. induction l as [|x l IH]; [done|]. cbn. by rewrite IH. Qed.

(** The masked volume frame, one ticker at a time. *)
Lemma masked_cols (fm : fill_method) (p : fl → bool) (d : ohlcv_frame) :
  f_cols (where_mask (xs_volume d) (frame_map p (pct_change fm (xs_close d))))
  = (fun c : string * aligned => (c.1, masked_volume fm p c.2)) <$> f_cols d.
Proof.
  unfold where_mask, frame_zip, xs_volume, xs_close, pct_change, frame_map.
  cbn [f_cols f_index]. rewrite <- !list_fmap_compose, zip_with_fmap_same.
  apply list_fmap_ext. intros _ c _. reflexivity.
Qed.

Lemma volume_per_period_lookup (fm : fill_method) (p : fl → bool) (d : ohlcv_frame)
    (k : nat) :
  (k < length (f_index d))%nat →
  volume_per_period fm p d !! k
  = Some (col_sum (default 0)
            ((fun c : string * aligned => (c.1, masked_volume fm p c.2)) <$> f_cols d) k).
Proof.
  intros Hk. unfold volume_per_period, nansum_axis1.
  rewrite sum_axis1_lookup by exact Hk. by rewrite masked_cols.
Qed.

Lemma indicator_table_lengths (fm : fill_method) (d : ohlcv_frame) (name : string)
    (c : column) :
  dict_get name (i_cols (indicator_table fm d)) = Some c →
  column_length c = length (f_index d).
Proof.
  pose proof (volume_per_period_length fm fl_gt0 d) as Hu.
  pose proof (volume_per_period_length fm fl_lt0 d) as Hv.
  unfold volume_per_period in Hu, Hv.
  unfold indicator_table. cbn [i_cols dict_get].
  repeat (case_decide; [intros [= <-]; cbn [column_length];
                        rewrite ?length_zip_with, ?length_fmap, ?cumsum_length,
                          ?length_zip_with, ?count_axis1_length, ?Hu, ?Hv;
                        cbn [f_index pct_change frame_map xs_close]; lia|]).
  done.
Qed.

(** For a frame with at least one ticker the routine returns a rectangular
    table over the index of the frame: the eight indicator columns, in the
    order Advances, Declines, Unchanged, AD_Line, UVOL, DVOL, VOLD,
    VOLD_Ratio, each with one value per entry of the index. *)
Theorem indicator_table_is_rectangular (fm : fill_method) (w : world) (r : ref)
    (d : ohlcv_frame) :
  heap w !! r = Some (OFrame d) →
  f_cols d ≠ [] →
  ∃ t : ind_frame,
    returns_table fm w r t
    ∧ i_index t = f_index d
    ∧ dict_keys (i_cols t) = indicator_names
    ∧ ∀ (name : string) (c : column),
        dict_get name (i_cols t) = Some c → column_length c = length (f_index d).
Proof.
  intros Hr _. exists (indicator_table fm d).
  split; [by apply returns_indicator_table|]. split; [done|]. split; [done|].
  apply indicator_table_lengths.
Qed.

Lemma indicator_table_is_rectangular_witness :
  heap fixture_world !! 0%nat = Some (OFrame fixture_frame)
  ∧ f_cols fixture_frame ≠ []
  ∧ ∃ t : ind_frame,
      returns_table pad fixture_world 0 t
      ∧ i_index t = f_index fixture_frame
      ∧ dict_keys (i_cols t) = indicator_names
      ∧ ∀ (name : string) (c : column),
          dict_get name (i_cols t) = Some c →
          column_length c = length (f_index fixture_frame).
Proof.
  split; [reflexivity|]. split; [discriminate|].
  apply (indicator_table_is_rectangular pad fixture_world 0 fixture_frame).
  - reflexivity.
  - discriminate.
Defined.

Lemma returns_table_eq (fm : fill_method) (w : world) (r : ref) (d : ohlcv_frame)
    (t : ind_frame) :
  heap w !! r = Some (OFrame d) → returns_table fm w r t → t = indicator_table fm d.
Proof.
  intros Hr (r' & w' & Hrun & Ht).
  rewrite (calculate_market_indicators_run fm w r d Hr) in Hrun.
  injection Hrun as <- <-. cbn [heap] in Ht. rewrite lookup_snoc in Ht.
  by injection Ht.
Qed.

Lemma col_sum_zero {A} (g : A → Z) (cols : list (string * list A)) (k : nat) :
  (∀ (c : string * list A) (x : A), c ∈ cols → c.2 !! k = Some x → g x = 0) →
  col_sum g cols k = 0.
Proof.
  induction cols as [|c cols IH]; intros H; [done|].
  rewrite col_sum_cons, IH by (intros c' x Hc'; apply H; by right).
  destruct (c.2 !! k) as [x|] eqn:Hx; cbn; [|done].
  rewrite (H c x) by (done || by left). done.
Qed.

Lemma col_sum_nonneg {A} (g : A → Z) (cols : list (string * list A)) (k : nat) :
  (∀ (c : string * list A) (x : A), c ∈ cols → c.2 !! k = Some x → 0 <= g x) →
  0 <= col_sum g cols k.
Proof.
  induction cols as [|c cols IH]; intros H; [done|].
  rewrite col_sum_cons.
  assert (0 <= col_sum g cols k) by (apply IH; intros c' x Hc'; apply H; by right).
  destruct (c.2 !! k) as [x|] eqn:Hx; cbn; [|lia].
  assert (0 <= g x) by (apply (H c x); [by left|done]). lia.
Qed.

Lemma masked_volume_first (fm : fill_method) (p : fl → bool) (col : aligned)
    (v : option Z) :
  p FNaN = false → masked_volume fm p col !! 0%nat = Some v → v = None.
Proof.
  intros Hp. unfold masked_volume. rewrite lookup_zip_with, list_lookup_fmap.
  destruct (vols col !! 0%nat) as [v0|]; cbn; [|done].
  destruct (pct_change_col fm (closes col) !! 0%nat) as [x|] eqn:Hx; cbn; [|done].
  rewrite (pct_change_col_first _ _ _ Hx), Hp. by intros [= <-].
Qed.

Lemma masked_volume_cell (fm : fill_method) (p : fl → bool) (col : aligned)
    (k : nat) (v : Z) :
  masked_volume fm p col !! k = Some (Some v) →
  ∃ b : Bar, Some b ∈ col ∧ Volume b = v.
Proof.
  unfold masked_volume, vols. rewrite lookup_zip_with, !list_lookup_fmap.
  destruct (col !! k) as [[b|]|] eqn:Hb; cbn; try done.
  - destruct (pct_change_col fm (closes col) !! k) as [x|]; cbn; [|done].
    destruct (p x); [|done]. intros [= <-]. exists b.
    split; [|done]. by eapply list_elem_of_lookup_2.
  - destruct (pct_change_col fm (closes col) !! k) as [x|]; cbn; [|done].
    by destruct (p x).
Qed.

Lemma volume_first_period (fm : fill_method) (p : fl → bool) (d : ohlcv_frame) :
  p FNaN = false → f_index d ≠ [] → volume_per_period fm p d !! 0%nat = Some 0.
Proof.
  intros Hp Hidx.
  rewrite volume_per_period_lookup by (destruct (f_index d); [done|cbn; lia]).
  f_equal. apply col_sum_zero. intros c v Hc Hv.
  apply list_elem_of_fmap in Hc as (c' & -> & _). cbn [snd] in Hv.
  by rewrite (masked_volume_first fm p _ v Hp Hv).
Qed.

Lemma volume_per_period_nonneg (fm : fill_method) (p : fl → bool) (d : ohlcv_frame)
    (k : nat) (x : Z) :
  volumes_nonneg d → volume_per_period fm p d !! k = Some x → 0 <= x.
Proof.
  intros Hvol Hx.
  assert (Hk : (k < length (f_index d))%nat).
  { apply lookup_lt_Some in Hx. by rewrite volume_per_period_length in Hx. }
  rewrite volume_per_period_lookup in Hx by done. injection Hx as <-.
  apply col_sum_nonneg. intros c v Hc Hv.
  apply list_elem_of_fmap in Hc as (c' & -> & Hc'). cbn [snd] in Hv.
  destruct v as [v|]; cbn; [|done].
  destruct (masked_volume_cell fm p _ k v Hv) as (b & Hb & <-).
  by apply (Hvol c' b).
Qed.

(** For a frame with at least one ticker and one period, the first row of
    the table is fixed: no price change exists yet, so Advances, Declines,
    Unchanged, AD_Line, UVOL, DVOL and VOLD are 0 and VOLD_Ratio is NaN,
    whatever the bars are. *)
Theorem first_row_is_zero (fm : fill_method) (w : world) (r : ref)
    (d : ohlcv_frame) :
  heap w !! r = Some (OFrame d) →
  f_cols d ≠ [] →
  f_index d ≠ [] →
  ∃ (t : ind_frame) (ratio : list fl),
    returns_table fm w r t
    ∧ (∀ name : string,
         name ∈ ["Advances"; "Declines"; "Unchanged"; "AD_Line"; "UVOL"; "DVOL"; "VOLD"] →
         ∃ col : list Z, int_column t name = Some col ∧ col !! 0%nat = Some 0)
    ∧ float_column t "VOLD_Ratio" = Some ratio
    ∧ ratio !! 0%nat = Some FNaN.
Proof.
  intros Hr _ Hidx. eexists (indicator_table fm d), _.
  split; [by apply returns_indicator_table|].
  assert (H0 : (0 < length (f_index d))%nat) by (destruct (f_index d); [done|cbn; lia]).
  set (pc := pct_change fm (xs_close d)).
  assert (Hcount : ∀ p : fl → bool, p FNaN = false →
            count_axis1 (frame_map p pc) !! 0%nat = Some 0).
  { intros p Hp. rewrite count_axis1_lookup by exact H0.
    unfold pc. by rewrite first_period_not_counted. }
  pose proof (volume_first_period fm fl_gt0 d eq_refl Hidx) as Hu.
  pose proof (volume_first_period fm fl_lt0 d eq_refl Hidx) as Hv.
  unfold volume_per_period in Hu, Hv.
  split; [|split; [reflexivity|]].
  - intros name Hname. unfold int_column, indicator_table. cbn [i_cols dict_get].
    repeat (apply elem_of_cons in Hname as [->|Hname];
            [eexists; split; [reflexivity|]|]); [..|by apply elem_of_nil in Hname].
    + by apply Hcount.
    + by apply Hcount.
    + by apply Hcount.
    + apply (cumsum_lookup_0 _ (0 - 0)). apply zip_with_sub_lookup; by apply Hcount.
    + by apply (cumsum_lookup_0 _ 0).
    + by apply (cumsum_lookup_0 _ 0).
    + apply (zip_with_sub_lookup _ _ _ 0 0); by apply (cumsum_lookup_0 _ 0).
  - rewrite lookup_zip_with, !list_lookup_fmap.
    rewrite (cumsum_lookup_0 _ 0 Hu), (cumsum_lookup_0 _ 0 Hv). reflexivity.
Qed.

Lemma first_row_is_zero_witness :
  heap fixture_world !! 0%nat = Some (OFrame fixture_frame)
  ∧ f_cols fixture_frame ≠ []
  ∧ f_index fixture_frame ≠ []
  ∧ ∃ (t : ind_frame) (ratio : list fl),
      returns_table pad fixture_world 0 t
      ∧ (∀ name : string,
           name ∈ ["Advances"; "Declines"; "Unchanged"; "AD_Line"; "UVOL"; "DVOL";
                   "VOLD"] →
           ∃ col : list Z, int_column t name = Some col ∧ col !! 0%nat = Some 0)
      ∧ float_column t "VOLD_Ratio" = Some ratio
      ∧ ratio !! 0%nat = Some FNaN.
Proof.
  split; [reflexivity|]. split; [discriminate|]. split; [discriminate|].
  apply (first_row_is_zero pad fixture_world 0 fixture_frame).
  - reflexivity.
  - discriminate.
  - discriminate.
Defined.

(** ** VOLD_Ratio away from zero, and non-negative volumes *)

Lemma Qsign_inject_Z_ne (v : Z) : v ≠ 0 → Qsign (inject_Z v) ≠ Eq.
Proof. intros Hv. rewrite Qsign_inject_Z. by rewrite Z.compare_eq_iff. Qed.

Lemma fl_div_finite (u v : Z) :
  v ≠ 0 → fl_div (fl_of_Z u) (fl_of_Z v) = FNum (inject_Z u / inject_Z v).
Proof.
  intros Hv. unfold fl_div, fl_of_Z, Qfdiv.
  pose proof (Qsign_inject_Z_ne v Hv). by destruct (Qsign (inject_Z v)).
Qed.



Lemma cumsum_nonneg (l : list Z) (k : nat) (s : Z) :
  (∀ (i : nat) (x : Z), l !! i = Some x → 0 <= x) →
  cumsum l !! k = Some s → 0 <= s.
Proof.
  intros Hl. revert s. induction k as [|k IH]; intros s Hs.
  - destruct l as [|x l]; [done|]. cbn in Hs. injection Hs as <-.
    pose proof (Hl 0%nat x eq_refl). lia.
  - assert (Hk : (S k < length l)%nat).
    { apply lookup_lt_Some in Hs. by rewrite cumsum_length in Hs. }
    destruct (lookup_lt_is_Some_2 l (S k) Hk) as [x Hx].
    destruct (lookup_lt_is_Some_2 (cumsum l) k) as [s0 Hs0];
      [rewrite cumsum_length; lia|].
    rewrite (cumsum_lookup_S l k s0 x Hs0 Hx) in Hs. injection Hs as <-.
    pose proof (IH s0 Hs0). pose proof (Hl (S k) x Hx). lia.
Qed.

Lemma cumsum_step (l : list Z) (k : nat) (s s' : Z) :
  (∀ (i : nat) (x : Z), l !! i = Some x → 0 <= x) →
  cumsum l !! k = Some s → cumsum l !! S k = Some s' → s <= s'.
Proof.
  intros Hl Hs Hs'.
  assert (Hk : (S k < length l)%nat).
  { apply lookup_lt_Some in Hs'. by rewrite cumsum_length in Hs'. }
  destruct (lookup_lt_is_Some_2 l (S k) Hk) as [x Hx].
  rewrite (cumsum_lookup_S l k s x Hs Hx) in Hs'. injection Hs' as <-.
  pose proof (Hl (S k) x Hx). lia.
Qed.

Lemma Qdiv_inject_nonneg (u v : Z) :
  0 <= u → 0 <= v → (0 <= inject_Z u / inject_Z v)%Q.
Proof.
  intros Hu Hv. unfold Qdiv. apply Qmult_le_0_compat.
  - unfold Qle. cbn. lia.
  - apply Qinv_le_0_compat. unfold Qle. cbn. lia.
Qed.

(** For a frame with at least one ticker whose volumes are all non-negative,
    the cumulative UVOL and DVOL are non-negative and never decrease from
    one period to the next, and VOLD_Ratio is never negative: it is NaN,
    +infinity or a non-negative number. *)
Theorem volume_totals_never_decrease (fm : fill_method) (w : world) (r : ref)
    (d : ohlcv_frame) :
  heap w !! r = Some (OFrame d) →
  f_cols d ≠ [] →
  volumes_nonneg d →
  ∃ (t : ind_frame) (uvol dvol : list Z) (ratio : list fl),
    returns_table fm w r t
    ∧ int_column t "UVOL" = Some uvol
    ∧ int_column t "DVOL" = Some dvol
    ∧ float_column t "VOLD_Ratio" = Some ratio
    ∧ (∀ (k : nat) (u : Z), uvol !! k = Some u → 0 <= u)
    ∧ (∀ (k : nat) (v : Z), dvol !! k = Some v → 0 <= v)
    ∧ (∀ (k : nat) (u u' : Z), uvol !! k = Some u → uvol !! S k = Some u' → u <= u')
    ∧ (∀ (k : nat) (v v' : Z), dvol !! k = Some v → dvol !! S k = Some v' → v <= v')
    ∧ (∀ (k : nat) (x : fl),
         ratio !! k = Some x →
         x = FNaN ∨ x = FPInf ∨ ∃ q : Q, x = FNum q ∧ (0 <= q)%Q).
Proof.
  intros Hr _ Hvol. eexists (indicator_table fm d), _, _, _.
  split; [by apply returns_indicator_table|].
  do 3 (split; [reflexivity|]).
  assert (Hup : ∀ (i : nat) (x : Z), volume_per_period fm fl_gt0 d !! i = Some x → 0 <= x)
    by (intros i x; by apply volume_per_period_nonneg).
  assert (Hdn : ∀ (i : nat) (x : Z), volume_per_period fm fl_lt0 d !! i = Some x → 0 <= x)
    by (intros i x; by apply volume_per_period_nonneg).
  unfold volume_per_period in Hup, Hdn.
  split; [intros k u; by apply cumsum_nonneg|].
  split; [intros k v; by apply cumsum_nonneg|].
  split; [intros k u u'; by apply cumsum_step|].
  split; [intros k v v'; by apply cumsum_step|].
  intros k x. rewrite lookup_zip_with, !list_lookup_fmap.
  destruct (cumsum (nansum_axis1 (where_mask (xs_volume d)
              (frame_map fl_gt0 (pct_change fm (xs_close d))))) !! k)
    as [u|] eqn:Hu; [|by cbn].
  destruct (cumsum (nansum_axis1 (where_mask (xs_volume d)
              (frame_map fl_lt0 (pct_change fm (xs_close d))))) !! k)
    as [v|] eqn:Hv; [|by cbn].
  cbn [fmap option_fmap option_map mbind option_bind].
  pose proof (cumsum_nonneg _ k u Hup Hu) as Hu0.
  pose proof (cumsum_nonneg _ k v Hdn Hv) as Hv0.
  intros Hx. assert (Hx' : x = fl_div (fl_of_Z u) (fl_of_Z v)) by congruence.
  clear Hx. subst x. destruct (decide (v = 0)) as [->|Hne].
  - rewrite fl_div_by_zero.
    destruct (Z.compare_spec u 0); [by left|lia|right; by left].
  - rewrite fl_div_finite by done. right. right. eexists. split; [done|].
    by apply Qdiv_inject_nonneg.
Qed.

Lemma fixture_volumes_nonneg : volumes_nonneg fixture_frame.
Proof.
  intros c b Hc Hb. unfold fixture_frame in Hc. cbn [f_cols] in Hc.
  repeat (apply elem_of_cons in Hc as [->|Hc];
          [cbn [snd] in Hb;
           repeat (apply elem_of_cons in Hb as [Hb|Hb];
                   [first [discriminate Hb | injection Hb as ->; cbn; lia]|]);
           by apply elem_of_nil in Hb|]).
  by apply elem_of_nil in Hc.
Defined.

Lemma volume_totals_never_decrease_witness :
  heap fixture_world !! 0%nat = Some (OFrame fixture_frame)
  ∧ f_cols fixture_frame ≠ []
  ∧ volumes_nonneg fixture_frame
  ∧ ∃ (t : ind_frame) (uvol dvol : list Z) (ratio : list fl),
      returns_table pad fixture_world 0 t
      ∧ int_column t "UVOL" = Some uvol
      ∧ int_column t "DVOL" = Some dvol
      ∧ float_column t "VOLD_Ratio" = Some ratio
      ∧ (∀ (k : nat) (u : Z), uvol !! k = Some u → 0 <= u)
      ∧ (∀ (k : nat) (v : Z), dvol !! k = Some v → 0 <= v)
      ∧ (∀ (k : nat) (u u' : Z), uvol !! k = Some u → uvol !! S k = Some u' → u <= u')
      ∧ (∀ (k : nat) (v v' : Z), dvol !! k = Some v → dvol !! S k = Some v' → v <= v')
      ∧ (∀ (k : nat) (x : fl),
           ratio !! k = Some x →
           x = FNaN ∨ x = FPInf ∨ ∃ q : Q, x = FNum q ∧ (0 <= q)%Q).
Proof.
  split; [reflexivity|]. split; [discriminate|].
  split; [exact fixture_volumes_nonneg|].
  apply (volume_totals_never_decrease pad fixture_world 0 fixture_frame).
  - reflexivity.
  - discriminate.
  - exact fixture_volumes_nonneg.
Defined.

(** ** Frames without gaps *)

Lemma ffill_from_no_gap {A} (last : option A) (l : list (option A)) :
  Forall is_Some l → ffill_from last l = l.
Proof.
  intros H. revert last. induction H as [|x l [y ->] _ IH]; intros last; [done|].
  cbn. by rewrite IH.
Qed.

Lemma pct_change_col_no_gap (col : aligned) :
  Forall is_Some col →
  pct_change_col pad (closes col) = pct_change_col no_fill (closes col).
Proof.
  intros H. unfold pct_change_col, ffill. rewrite ffill_from_no_gap; [done|].
  unfold closes. apply Forall_fmap. eapply Forall_impl; [exact H|].
  intros x [b ->]. by eexists.
Qed.

Lemma pct_change_no_gap (d : ohlcv_frame) :
  gap_free d → pct_change pad (xs_close d) = pct_change no_fill (xs_close d).
Proof.
  intros Hd. unfold pct_change. f_equal.
  change (f_cols (xs_close d))
    with ((fun c : string * aligned => (c.1, closes c.2)) <$> f_cols d).
  rewrite <- !list_fmap_compose. apply list_fmap_ext. intros i c Hc. cbn.
  f_equal. apply pct_change_col_no_gap, Hd. by eapply list_elem_of_lookup_2.
Qed.

(** On a frame with at least one ticker and no missing cell, the table does
    not depend on whether [pct_change] forward-fills: both defaults of
    pandas give the same eight columns. *)
Theorem fill_method_irrelevant_without_gaps (w : world) (r : ref) (d : ohlcv_frame)
    (t t' : ind_frame) :
  heap w !! r = Some (OFrame d) →
  f_cols d ≠ [] →
  gap_free d →
  returns_table pad w r t →
  returns_table no_fill w r t' →
  t = t'.
Proof.
  intros Hr _ Hd Ht Ht'.
  rewrite (returns_table_eq pad w r d t Hr Ht).
  rewrite (returns_table_eq no_fill w r d t' Hr Ht').
  unfold indicator_table. by rewrite (pct_change_no_gap d Hd).
Qed.

Lemma scenario_gap_free : gap_free scenario_frame.
Proof.
  intros c Hc. unfold scenario_frame in Hc. cbn [f_cols] in Hc.
  repeat (apply elem_of_cons in Hc as [->|Hc];
          [cbn [snd]; repeat constructor; by eexists|]).
  by apply elem_of_nil in Hc.
Defined.

Lemma fill_method_irrelevant_without_gaps_witness :
  heap (mkWorld [OFrame scenario_frame] []) !! 0%nat = Some (OFrame scenario_frame)
  ∧ f_cols scenario_frame ≠ []
  ∧ gap_free scenario_frame
  ∧ returns_table pad (mkWorld [OFrame scenario_frame] []) 0
      (indicator_table pad scenario_frame)
  ∧ returns_table no_fill (mkWorld [OFrame scenario_frame] []) 0
      (indicator_table no_fill scenario_frame)
  ∧ indicator_table pad scenario_frame = indicator_table no_fill scenario_frame.
Proof.
  assert (H1 : heap (mkWorld [OFrame scenario_frame] []) !! 0%nat
               = Some (OFrame scenario_frame)) by reflexivity.
  assert (H2 : f_cols scenario_frame ≠ []) by discriminate.
  assert (H3 : returns_table pad (mkWorld [OFrame scenario_frame] []) 0
                 (indicator_table pad scenario_frame))
    by (apply returns_indicator_table; exact H1).
  assert (H4 : returns_table no_fill (mkWorld [OFrame scenario_frame] []) 0
                 (indicator_table no_fill scenario_frame))
    by (apply returns_indicator_table; exact H1).
  split; [exact H1|]. split; [exact H2|]. split; [exact scenario_gap_free|].
  split; [exact H3|]. split; [exact H4|].
  exact (fill_method_irrelevant_without_gaps (mkWorld [OFrame scenario_frame] []) 0
           scenario_frame _ _ H1 H2 scenario_gap_free H3 H4).
Defined.

(** ** The order of the tickers *)

Lemma col_sum_perm {A} (g : A → Z) (cols cols' : list (string * list A)) (k : nat) :
  cols ≡ₚ cols' → col_sum g cols k = col_sum g cols' k.
Proof.
  induction 1 as [|c l l' _ IH|c c' l|l l' l'' _ IH1 _ IH2]; [done|..].
  - by rewrite !col_sum_cons, IH.
  - rewrite !col_sum_cons. lia.
  - by rewrite IH1.
Qed.

Lemma list_lookup_eq {A} (l l' : list A) (n : nat) (f f' : nat → A) :
  length l = n → length l' = n →
  (∀ k : nat, (k < n)%nat → l !! k = Some (f k) ∧ l' !! k = Some (f' k)) →
  (∀ k : nat, (k < n)%nat → f k = f' k) →
  l = l'.
Proof.
  intros Hl Hl' Hlook Heq. apply list_eq. intros k.
  destruct (decide (k < n)%nat) as [Hk|Hk].
  - destruct (Hlook k Hk) as [-> ->]. by rewrite Heq.
  - rewrite !lookup_ge_None_2 by lia. done.
Qed.

Lemma count_axis1_perm (fm : fill_method) (p : fl → bool) (d d' : ohlcv_frame) :
  f_index d = f_index d' → f_cols d ≡ₚ f_cols d' →
  count_axis1 (frame_map p (pct_change fm (xs_close d)))
  = count_axis1 (frame_map p (pct_change fm (xs_close d'))).
Proof.
  intros Hidx Hcols.
  apply (list_lookup_eq _ _ (length (f_index d))
           (col_sum (Z.b2z ∘ p) (f_cols (pct_change fm (xs_close d))))
           (col_sum (Z.b2z ∘ p) (f_cols (pct_change fm (xs_close d'))))).
  - by rewrite count_axis1_length.
  - rewrite count_axis1_length. cbn. by rewrite Hidx.
  - intros k Hk. split; apply count_axis1_lookup; cbn; [done|by rewrite <- Hidx].
  - intros k _. apply col_sum_perm. rewrite !pct_change_cols.
    by apply fmap_Permutation.
Qed.

Lemma volume_per_period_perm (fm : fill_method) (p : fl → bool) (d d' : ohlcv_frame) :
  f_index d = f_index d' → f_cols d ≡ₚ f_cols d' →
  volume_per_period fm p d = volume_per_period fm p d'.
Proof.
  intros Hidx Hcols.
  apply (list_lookup_eq _ _ (length (f_index d))
           (col_sum (default 0)
              ((fun c : string * aligned => (c.1, masked_volume fm p c.2)) <$> f_cols d))
           (col_sum (default 0)
              ((fun c : string * aligned => (c.1, masked_volume fm p c.2)) <$> f_cols d'))).
  - by rewrite volume_per_period_length.
  - by rewrite volume_per_period_length, Hidx.
  - intros k Hk. split; apply volume_per_period_lookup; [done|by rewrite <- Hidx].
  - intros k _. apply col_sum_perm. by apply fmap_Permutation.
Qed.

(** The table does not depend on the order of the tickers: two frames over
    the same index that hold the same ticker columns in different orders get
    the same eight columns. *)
Theorem ticker_order_is_irrelevant (fm : fill_method) (w w' : world) (r r' : ref)
    (d d' : ohlcv_frame) (t t' : ind_frame) :
  heap w !! r = Some (OFrame d) →
  heap w' !! r' = Some (OFrame d') →
  f_cols d ≠ [] →
  f_index d = f_index d' →
  f_cols d ≡ₚ f_cols d' →
  returns_table fm w r t →
  returns_table fm w' r' t' →
  t = t'.
Proof.
  intros Hr Hr' _ Hidx Hcols Ht Ht'.
  rewrite (returns_table_eq fm w r d t Hr Ht).
  rewrite (returns_table_eq fm w' r' d' t' Hr' Ht').
  unfold indicator_table.
  pose proof (volume_per_period_perm fm fl_gt0 d d' Hidx Hcols) as Hu.
  pose proof (volume_per_period_perm fm fl_lt0 d d' Hidx Hcols) as Hv.
  unfold volume_per_period in Hu, Hv.
  rewrite !(count_axis1_perm fm _ d d' Hidx Hcols), Hu, Hv, Hidx. reflexivity.
Qed.

Lemma ticker_order_is_irrelevant_witness :
  heap (mkWorld [OFrame scenario_frame] []) !! 0%nat = Some (OFrame scenario_frame)
  ∧ heap (mkWorld [OFrame fixture_frame; OFrame reordered_frame] []) !! 1%nat
    = Some (OFrame reordered_frame)
  ∧ f_cols scenario_frame ≠ []
  ∧ f_index scenario_frame = f_index reordered_frame
  ∧ f_cols scenario_frame ≡ₚ f_cols reordered_frame
  ∧ returns_table pad (mkWorld [OFrame scenario_frame] []) 0
      (indicator_table pad scenario_frame)
  ∧ returns_table pad (mkWorld [OFrame fixture_frame; OFrame reordered_frame] []) 1
      (indicator_table pad reordered_frame)
  ∧ indicator_table pad scenario_frame = indicator_table pad reordered_frame.
Proof.
  assert (H1 : heap (mkWorld [OFrame scenario_frame] []) !! 0%nat
               = Some (OFrame scenario_frame)) by reflexivity.
  assert (H2 : heap (mkWorld [OFrame fixture_frame; OFrame reordered_frame] [])
                 !! 1%nat = Some (OFrame reordered_frame)) by reflexivity.
  assert (H3 : f_cols scenario_frame ≠ []) by discriminate.
  assert (H4 : f_index scenario_frame = f_index reordered_frame) by reflexivity.
  assert (H5 : f_cols scenario_frame ≡ₚ f_cols reordered_frame)
    by (symmetry; apply reverse_Permutation).
  assert (H6 : returns_table pad (mkWorld [OFrame scenario_frame] []) 0
                 (indicator_table pad scenario_frame))
    by (apply returns_indicator_table; exact H1).
  assert (H7 : returns_table pad
                 (mkWorld [OFrame fixture_frame; OFrame reordered_frame] []) 1
                 (indicator_table pad reordered_frame))
    by (apply returns_indicator_table; exact H2).
  split; [exact H1|]. split; [exact H2|]. split; [exact H3|]. split; [exact H4|].
  split; [exact H5|]. split; [exact H6|]. split; [exact H7|].
  exact (ticker_order_is_irrelevant pad _ _ 0%nat 1%nat scenario_frame reordered_frame
           _ _ H1 H2 H3 H4 H5 H6 H7).
Defined.

(** ** The other integral columns, over the sectors *)

















(** ** What a sector's group of columns is *)

Lemma pick_cons_notin {A} (t : string) (c : list A) (cols : list (string * list A))
    (labels : list string) :
  t ∉ labels → pick ((t, c) :: cols) labels = pick cols labels.
Proof.
  induction labels as [|l labels IH]; [done|].
  rewrite not_elem_of_cons. intros [Hne Hnin]. cbn [pick dict_get].
  rewrite decide_False by done. rewrite IH by done. reflexivity.
Qed.

Lemma filter_ext_in {A} (P Q : A → Prop) `{∀ x, Decision (P x)}
    `{∀ x, Decision (Q x)} (l : list A) :
  (∀ x : A, x ∈ l → P x ↔ Q x) → filter P l = filter Q l.
Proof.
  induction l as [|x l IH]; intros HPQ; [done|].
  rewrite !filter_cons, IH by (intros y Hy; apply HPQ; by right).
  destruct (decide (P x)) as [HP|HP].
  - rewrite decide_True; [done|]. apply HPQ; [left|done].
  - rewrite decide_False; [done|]. intros HQ. apply HP, HPQ; [left|done].
Qed.

Lemma sector_tickers_keys (sectors : list (string * string)) (s t : string) :
  t ∈ sector_tickers sectors s → t ∈ dict_keys sectors.
Proof.
  unfold sector_tickers, dict_keys. rewrite !list_elem_of_fmap.
  intros (p & -> & Hp). exists p. split; [done|].
  by apply list_elem_of_filter in Hp as [_ Hp].
Qed.

(** Selecting the tickers of a sector keeps the columns of the frame whose
    ticker has that sector, in the order of the frame. *)
Lemma pick_sector_tickers {A} (cols : list (string * list A))
    (sectors : list (string * string)) (s : string) :
  dict_keys sectors = dict_keys cols →
  NoDup (dict_keys cols) →
  pick cols (sector_tickers sectors s)
  = filter (fun c : string * list A => dict_get c.1 sectors = Some s) cols.
Proof.
  revert sectors. induction cols as [|[t c] cols IH]; intros [|[t' s'] sectors] Hk Hnd;
    try done.
  cbn [dict_keys fmap list_fmap fst] in Hk, Hnd. injection Hk as -> Hk.
  apply NoDup_cons in Hnd as [Hnin Hnd].
  assert (Hrest : filter (fun c0 : string * list A =>
                            dict_get c0.1 ((t, s') :: sectors) = Some s) cols
                  = filter (fun c0 : string * list A => dict_get c0.1 sectors = Some s)
                      cols).
  { apply filter_ext_in. intros [t0 c0] Hin. cbn [fst dict_get].
    rewrite decide_False; [done|]. intros ->. apply Hnin.
    apply list_elem_of_fmap. by exists (t0, c0). }
  assert (Hlab : t ∉ sector_tickers sectors s).
  { intros Hin. apply sector_tickers_keys in Hin.
    apply Hnin. unfold dict_keys in Hin, Hk. by rewrite <- Hk. }
  rewrite filter_cons, Hrest. unfold sector_tickers at 1. rewrite filter_cons.
  cbn [fst snd dict_get]. rewrite (decide_True (P := t = t)) by done.
  destruct (decide (s' = s)) as [->|Hne].
  - rewrite decide_True by done. rewrite fmap_cons. cbn [fst pick dict_get].
    rewrite (decide_True (P := t = t)) by done.
    change (fst <$> filter (fun p : string * string => p.2 = s) sectors)
      with (sector_tickers sectors s).
    rewrite pick_cons_notin by done. by rewrite IH.
  - rewrite decide_False by congruence.
    change (fst <$> filter (fun p : string * string => p.2 = s) sectors)
      with (sector_tickers sectors s).
    rewrite pick_cons_notin by done. by apply IH.
Qed.

Lemma filter_none {A} (P : A → Prop) `{∀ x, Decision (P x)} (l : list A) :
  (∀ x : A, x ∈ l → ¬ P x) → filter P l = [].
Proof.
  induction l as [|x l IH]; intros HP; [done|].
  rewrite filter_cons, decide_False by (apply HP; left).
  apply IH. intros y Hy. apply HP. by right.
Qed.

Lemma concat_tables_group (tables : list (string * ind_frame)) (s : string)
    (t : ind_frame) :
  NoDup (fst <$> tables) →
  (s, t) ∈ tables →
  filter (fun c : (string * string) * column => c.1.1 = s) (concat_tables tables)
  = (fun c : string * column => ((s, c.1), c.2)) <$> i_cols t.
Proof.
  induction tables as [|[s0 t0] tables IH]; intros Hnd Hin.
  { by apply elem_of_nil in Hin. }
  cbn [fmap list_fmap fst] in Hnd. apply NoDup_cons in Hnd as [Hnin Hnd].
  cbn [concat_tables]. rewrite filter_app.
  apply elem_of_cons in Hin as [[= <- <-]|Hin].
  - rewrite filter_all.
    2:{ intros c Hc. apply list_elem_of_fmap in Hc as (c0 & -> & _). done. }
    rewrite (filter_none _ (concat_tables tables)); [by rewrite app_nil_r|].
    intros [[s1 n] c] Hc Heq. cbn in Heq. subst s1.
    apply Hnin. clear -Hc. induction tables as [|[s1 t1] tables IH]; cbn in *.
    { by apply elem_of_nil in Hc. }
    apply elem_of_app in Hc as [Hc|Hc].
    + apply list_elem_of_fmap in Hc as (c0 & [= <- _ _] & _). by left.
    + right. by apply IH.
  - rewrite filter_none; [by rewrite app_nil_l, IH|].
    intros c Hc Heq.
    apply list_elem_of_fmap in Hc as (c0 & -> & _). cbn in Heq. subst s0.
    apply Hnin. apply list_elem_of_fmap. by exists (s, t).
Qed.

(** In a run in which some ticker has data, the group of columns of a sector
    in the per-sector table is what [calculate_market_indicators] returns
    for the OHLCV frame restricted to the tickers with that sector, taken in
    the order of the frame: the same eight columns, labelled with the
    sector. *)
Theorem sector_group_is_routine_on_its_tickers (fm : fill_method)
    (history : string → datetime → datetime → res series)
    (info : string → res (gmap string string))
    (tickers : list string) (d : date) (w w' : world) (r1 r2 r3 : ref)
    (comb : ohlcv_frame) (sec : sector_frame) (t0 : string) :
  calculate_indicators fm history info tickers d w = (Ok (r1, r2, r3), w') →
  heap w' !! r1 = Some (OFrame comb) →
  heap w' !! r3 = Some (SFrame sec) →
  t0 ∈ dict_keys (f_cols comb) →
  ∃ sub : ohlcv_frame,
    sub = mkFrame (f_index comb)
            (filter (fun c : string * aligned => sector_of info c.1 = sector_of info t0)
               (f_cols comb))
    ∧ t0 ∈ dict_keys (f_cols sub)
    ∧ ∀ (w0 : world) (r0 : ref),
        heap w0 !! r0 = Some (OFrame sub) →
        ∃ t : ind_frame,
          returns_table fm w0 r0 t
          ∧ filter (fun c : (string * string) * column => c.1.1 = sector_of info t0)
              (s_cols sec)
            = (fun c : string * column => ((sector_of info t0, c.1), c.2)) <$> i_cols t.
Proof.
  intros Hrun Hcomb Hsec Ht0.
  assert (Hcols : f_cols comb ≠ []).
  { intros He. rewrite He in Ht0. by apply elem_of_nil in Ht0. }
  destruct (run_outputs fm history info tickers d w)
    as (r1' & r2' & r3' & w'' & o1 & o2 & o3 & Hrun' & H1 & _ & H3 & _ & _ & Hcase).
  rewrite Hrun' in Hrun. injection Hrun as <- <- <- <-.
  rewrite H1 in Hcomb. rewrite H3 in Hsec.
  destruct Hcase as [(_ & -> & _)|(Hne & -> & _ & ->)].
  { injection Hcomb as <-. done. }
  injection Hcomb as <-. injection Hsec as <-. cbn [s_cols].
  destruct (fetch_all_ok history info tickers d) as [Hk Hnd].
  pose proof (fetch_all_sectors_recorded history info tickers d) as Hrec.
  set (all_data := (fetch_all history info tickers d).1) in *.
  set (sectors := (fetch_all history info tickers d).2) in *.
  set (comb := combined_frame d all_data) in *.
  set (s := sector_of info t0).
  assert (Hck : dict_keys (f_cols comb) = dict_keys all_data)
    by apply combined_frame_keys.
  assert (Hsub : sub_frame comb sectors s
                 = mkFrame (f_index comb)
                     (filter (fun c : string * aligned => sector_of info c.1 = s)
                        (f_cols comb))).
  { unfold sub_frame. f_equal.
    rewrite pick_sector_tickers; [|by rewrite Hck|by rewrite Hck].
    apply filter_ext_in. intros [t c] Hin. cbn [fst].
    rewrite Hrec.
    - split; [by intros [= ->]|by intros ->].
    - rewrite <- Hk, <- Hck. apply list_elem_of_fmap. by exists (t, c). }
  eexists. split; [reflexivity|]. split.
  { cbn [f_cols]. unfold dict_keys in *. apply list_elem_of_fmap in Ht0 as ([t c] & -> & Hin).
    apply list_elem_of_fmap. exists (t, c). split; [done|].
    apply list_elem_of_filter. by split. }
  intros w0 r0 Hr0. exists (sector_table fm comb sectors s). split.
  - unfold sector_table. rewrite Hsub. by apply returns_indicator_table.
  - apply concat_tables_group.
    + rewrite <- list_fmap_compose.
      replace (fst ∘ (fun s1 : string => (s1, sector_table fm comb sectors s1)) <$>
                 remove_dups (dict_values sectors))
        with (remove_dups (dict_values sectors)); [apply NoDup_remove_dups|].
      symmetry. etrans; [|apply list_fmap_id]. by apply list_fmap_ext.
    + apply list_elem_of_fmap. exists s. split; [done|].
      apply elem_of_remove_dups. unfold sectors. apply recorded_sectors.
      exists t0. split; [|done]. fold all_data. by rewrite <- Hck.
Qed.

Lemma sector_group_is_routine_on_its_tickers_witness :
  fixture_run = (Ok (0, 1, 6)%nat, fixture_run.2)
  ∧ heap fixture_run.2 !! 0%nat = Some (OFrame fixture_combined)
  ∧ heap fixture_run.2 !! 6%nat = Some (SFrame fixture_sector_frame)
  ∧ "A" ∈ dict_keys (f_cols fixture_combined)
  ∧ ∃ sub : ohlcv_frame,
      sub = mkFrame (f_index fixture_combined)
              (filter (fun c : string * aligned =>
                         sector_of fixture_info c.1 = sector_of fixture_info "A")
                 (f_cols fixture_combined))
      ∧ "A" ∈ dict_keys (f_cols sub)
      ∧ ∀ (w0 : world) (r0 : ref),
          heap w0 !! r0 = Some (OFrame sub) →
          ∃ t : ind_frame,
            returns_table pad w0 r0 t
            ∧ filter (fun c : (string * string) * column =>
                        c.1.1 = sector_of fixture_info "A")
                (s_cols fixture_sector_frame)
              = (fun c : string * column => ((sector_of fixture_info "A", c.1), c.2))
                  <$> i_cols t.
Proof.
  assert (H1 : fixture_run = (Ok (0, 1, 6)%nat, fixture_run.2))
    by (vm_compute; reflexivity).
  assert (H2 : heap fixture_run.2 !! 0%nat = Some (OFrame fixture_combined))
    by (vm_compute; reflexivity).
  assert (H3 : heap fixture_run.2 !! 6%nat = Some (SFrame fixture_sector_frame))
    by (vm_compute; reflexivity).
  assert (H4 : "A" ∈ dict_keys (f_cols fixture_combined))
    by (vm_compute; constructor).
  split; [exact H1|]. split; [exact H2|]. split; [exact H3|]. split; [exact H4|].
  exact (sector_group_is_routine_on_its_tickers pad fixture_history fixture_info
           ["A"; "B"; "C"] 0 (mkWorld [] []) fixture_run.2 0%nat 1%nat 6%nat
           fixture_combined fixture_sector_frame "A" H1 H2 H3 H4).
Defined.
